(** * A shallow embedding of the Notion tool layer ([src/notion/new.py])

    The module wraps the Notion client as a set of tools.  Every tool shapes
    a keyword-argument dictionary, hands it to one client endpoint through
    [safe_execute], and returns a dictionary
    [{"successful": .., "data": .., "error": ..}].

    Modelling choices, all taken from the source:
    - Python values are the JSON fragment the tools handle: [None], booleans,
      integers, strings, lists and dictionaries with string keys.  A
      dictionary is an association list in insertion order with distinct
      keys (the order decides [next(... for k, v in d.items() ...)]).
      Floats, tuples and dictionaries with other keys are outside the model.
    - The Notion client is a parameter: a transition function from an
      endpoint, its keyword arguments and the collaborator's state to a
      reply (a returned value, or the text [str(e)] of the raised
      exception) and a new state.
    - A tool runs in a state-and-exception monad.  The state holds the
      collaborator's state and the list of client calls issued so far; an
      exception that the tool does not catch is the outcome [Raise].
    - The two [while True] loops take fuel; running out of fuel stands for a
      loop that has not finished.
    - Logging ([logger.info], [logger.exception]) is not modelled.
    - [safe_execute] catches [Exception]; interrupts ([BaseException]) are
      outside the model. *)

From Stdlib Require Import String Ascii List ZArith Bool Arith Lia.
Import ListNotations.
Open Scope string_scope.
Open Scope list_scope.
Set Warnings "-register-all".

(** ** Python values *)

Inductive value : Type :=
| VNone
| VBool (b : bool)
| VInt (n : Z)
| VStr (s : string)
| VList (xs : list value)
| VDict (kvs : list (string * value)).

Definition dict : Type := list (string * value).

(** Exceptions the tool code itself can raise. *)
Inductive exn : Type :=
| AttributeError
| KeyError (k : string)
| TypeError
| ValueError.

Inductive outcome (A : Type) : Type :=
| Ok (a : A)
| Raise (e : exn).
Arguments Ok {A} a.
Arguments Raise {A} e.

Definition bindO {A B} (c : outcome A) (k : A -> outcome B) : outcome B :=
  match c with
  | Ok a => k a
  | Raise e => Raise e
  end.

Notation "x <~ c ;; k" := (bindO c (fun x => k))
  (at level 61, c at next level, right associativity).

Fixpoint map_outcome {A B} (f : A -> outcome B) (xs : list A) : outcome (list B) :=
  match xs with
  | [] => Ok []
  | x :: xs' => y <~ f x ;; ys <~ map_outcome f xs' ;; Ok (y :: ys)
  end.

(** [bool(v)], the truth value used by [if v:] and [not v]. *)
Definition truthy (v : value) : bool :=
  match v with
  | VNone => false
  | VBool b => b
  | VInt n => negb (Z.eqb n 0)
  | VStr s => negb (String.eqb s "")
  | VList xs => match xs with [] => false | _ => true end
  | VDict kvs => match kvs with [] => false | _ => true end
  end.

Definition is_none (v : value) : bool :=
  match v with VNone => true | _ => false end.

Definition isinstance_str (v : value) : bool :=
  match v with VStr _ => true | _ => false end.

Definition isinstance_dict (v : value) : bool :=
  match v with VDict _ => true | _ => false end.

Definition isinstance_list (v : value) : bool :=
  match v with VList _ => true | _ => false end.

(** A parameter with a default: [None] is an omitted argument. *)
Definition dflt (d : value) (arg : option value) : value :=
  match arg with
  | Some v => v
  | None => d
  end.

(** ** Dictionaries *)

Fixpoint dict_get (k : string) (d : dict) : option value :=
  match d with
  | [] => None
  | (k', v) :: d' => if String.eqb k k' then Some v else dict_get k d'
  end.

Definition dict_has (k : string) (d : dict) : bool :=
  match dict_get k d with Some _ => true | None => false end.

(** [d[k] = v]: an existing key keeps its place, a new key goes last. *)
Fixpoint dict_set (k : string) (v : value) (d : dict) : dict :=
  match d with
  | [] => [(k, v)]
  | (k', v') :: d' =>
      if String.eqb k k' then (k', v) :: d' else (k', v') :: dict_set k v d'
  end.

(** [d.setdefault(k, v)] (the returned value is not used by the source). *)
Definition dict_setdefault (k : string) (v : value) (d : dict) : dict :=
  if dict_has k d then d else dict_set k v d.

(** [d.update(e)] for a dictionary [e]. *)
Definition dict_update (d e : dict) : dict :=
  fold_left (fun acc kv => dict_set (fst kv) (snd kv) acc) e d.

(** [v.get(k, default)]. *)
Definition py_get (v : value) (k : string) (default : value) : outcome value :=
  match v with
  | VDict d => Ok (match dict_get k d with Some x => x | None => default end)
  | _ => Raise AttributeError
  end.

(** [v[k]] with a string subscript. *)
Definition py_getitem (v : value) (k : string) : outcome value :=
  match v with
  | VDict d => match dict_get k d with Some x => Ok x | None => Raise (KeyError k) end
  | _ => Raise TypeError
  end.

(** [v[k] = x] on a dictionary. *)
Definition py_setitem (v : value) (k : string) (x : value) : outcome value :=
  match v with
  | VDict d => Ok (VDict (dict_set k x d))
  | _ => Raise TypeError
  end.

(** [k in v] for the dictionaries the source guards with [isinstance]. *)
Definition py_contains (v : value) (k : string) : bool :=
  match v with
  | VDict d => dict_has k d
  | _ => false
  end.

Fixpoint chars (s : string) : list value :=
  match s with
  | EmptyString => []
  | String c s' => VStr (String c EmptyString) :: chars s'
  end.

(** [iter(v)]: the elements a [for] loop, a comprehension or [list.extend]
    sees. *)
Definition py_iter (v : value) : outcome (list value) :=
  match v with
  | VList xs => Ok xs
  | VStr s => Ok (chars s)
  | VDict d => Ok (map (fun kv => VStr (fst kv)) d)
  | _ => Raise TypeError
  end.

(** [v.values()] and [v.items()]. *)
Definition py_values (v : value) : outcome (list value) :=
  match v with
  | VDict d => Ok (map snd d)
  | _ => Raise AttributeError
  end.

Definition py_items (v : value) : outcome dict :=
  match v with
  | VDict d => Ok d
  | _ => Raise AttributeError
  end.

(** One element of the argument of [dict.update] that is not a dictionary:
    an iterable of exactly two elements, the first the key.  Keys are
    strings here, as everywhere in this model: Python also takes a key
    that is [None], a boolean or an integer, a case this function answers
    with [TypeError] like the keys that cannot be hashed (lists,
    dictionaries).  The statements below that go through [py_update] take
    their argument to be a dictionary or falsy. *)
Definition as_pair (v : value) : outcome (string * value) :=
  match py_iter v with
  | Ok [VStr k; x] => Ok (k, x)
  | Ok [_; _] => Raise TypeError
  | Ok _ => Raise ValueError
  | Raise e => Raise e
  end.

(** [d.update(x)] for any value [x]. *)
Definition py_update (d : dict) (x : value) : outcome dict :=
  match x with
  | VDict e => Ok (dict_update d e)
  | _ => xs <~ py_iter x ;; kvs <~ map_outcome as_pair xs ;; Ok (dict_update d kvs)
  end.

(** [a == b].  Booleans compare as the integers 0 and 1; dictionaries
    compare without regard to order. *)
Fixpoint py_eq (a b : value) {struct a} : bool :=
  match a, b with
  | VNone, VNone => true
  | VBool x, VBool y => Bool.eqb x y
  | VBool x, VInt n => Z.eqb (if x then 1 else 0) n
  | VInt n, VBool y => Z.eqb n (if y then 1 else 0)
  | VInt n, VInt m => Z.eqb n m
  | VStr s, VStr t => String.eqb s t
  | VList xs, VList ys =>
      (fix go (xs ys : list value) {struct xs} : bool :=
         match xs, ys with
         | [], [] => true
         | x :: xs', y :: ys' => py_eq x y && go xs' ys'
         | _, _ => false
         end) xs ys
  | VDict d, VDict e =>
      Nat.eqb (length d) (length e) &&
      (fix go (d : dict) {struct d} : bool :=
         match d with
         | [] => true
         | (k, v) :: d' =>
             match dict_get k e with
             | Some w => py_eq v w
             | None => false
             end && go d'
         end) d
  | _, _ => false
  end.

(** ** The identifier validator *)

(** The part of Python's [re] that [_UUID_RE] uses: the anchors and a
    bounded greedy repetition of a character class. *)
Inductive re_item : Type :=
| ReBol
| ReEol
| ReClass (cls : ascii -> bool) (lo hi : nat).

Definition newline : ascii := ascii_of_nat 10.

(** [$] without [re.MULTILINE]: the end of the string, or just before a
    newline that is the last character. *)
Definition at_eol (s : string) : bool :=
  match s with
  | EmptyString => true
  | String c EmptyString => Ascii.eqb c newline
  | _ => false
  end.

(** [cls{lo,hi}] followed by the rest of the pattern [k]: as many
    characters as possible first, then fewer. *)
Fixpoint re_repeat (cls : ascii -> bool) (k : nat -> string -> bool)
    (lo hi pos : nat) (s : string) : bool :=
  let stop := Nat.eqb lo 0 && k pos s in
  match hi with
  | O => stop
  | S hi' =>
      match s with
      | String c s' =>
          if cls c then re_repeat cls k (pred lo) hi' (S pos) s' || stop else stop
      | EmptyString => stop
      end
  end.

(** [pattern.match(s)] from position [pos]: the pattern has to match a
    prefix of what is left. *)
Fixpoint re_match_at (p : list re_item) (pos : nat) (s : string) : bool :=
  match p with
  | [] => true
  | ReBol :: p' => Nat.eqb pos 0 && re_match_at p' pos s
  | ReEol :: p' => at_eol s && re_match_at p' pos s
  | ReClass cls lo hi :: p' => re_repeat cls (re_match_at p') lo hi pos s
  end.

Definition re_match (p : list re_item) (s : string) : bool := re_match_at p 0 s.

(** The class [[0-9a-fA-F-]]. *)
Definition hex_or_dash (c : ascii) : bool :=
  let n := nat_of_ascii c in
  (Nat.leb 48 n && Nat.leb n 57)
  || (Nat.leb 97 n && Nat.leb n 102)
  || (Nat.leb 65 n && Nat.leb n 70)
  || Nat.eqb n 45.

(** [_UUID_RE = re.compile(r"^[0-9a-fA-F-]{32,36}$")] *)
Definition _UUID_RE : list re_item := [ReBol; ReClass hex_or_dash 32 36; ReEol].

Definition validate_notion_id (notion_id : value) : bool :=
  if negb (truthy notion_id) || negb (isinstance_str notion_id) then false
  else
    match notion_id with
    | VStr s => re_match _UUID_RE s
    | _ => false
    end.

(** Every character of [s] satisfies [f]. *)
Fixpoint string_forallb (f : ascii -> bool) (s : string) : bool :=
  match s with
  | EmptyString => true
  | String c s' => f c && string_forallb f s'
  end.

(** ** The collaborator and the tool monad *)

(** The client endpoints the tools reach ([notion.users.me], ...). *)
Inductive endpoint : Type :=
| users_me | users_list | users_retrieve
| pages_create | pages_retrieve | pages_update | pages_properties_retrieve
| search
| databases_create | databases_query | databases_retrieve | databases_update
| blocks_children_append | blocks_children_list | blocks_update | blocks_retrieve
| comments_create | comments_list.

(** What a client call does: it returns a value, or raises an exception
    whose [str(e)] is [msg]. *)
Inductive reply : Type :=
| Returns (data : value)
| Raises (msg : string).

(** [{"successful": ok, "data": data, "error": err}] *)
Definition envelope (ok : bool) (data err : value) : value :=
  VDict [("successful", VBool ok); ("data", data); ("error", err)].

(** The literal every input check returns. *)
Definition failure (msg : string) : value :=
  envelope false (VDict []) (VStr msg).

(** The literal [[{"type": "text", "text": {"content": content}}]]. *)
Definition text_runs (content : value) : value :=
  VList [VDict [("type", VStr "text"); ("text", VDict [("content", content)])]].

Definition markdown_to_rich_text (content : value) : value :=
  text_runs content.

(** [{"title": [{"text": {"content": title}}]}] *)
Definition title_value (title : value) : value :=
  VDict [("title", VList [VDict [("text", VDict [("content", title)])]])].

(** [isinstance(v, dict) and "title" in v] *)
Definition is_title_prop (v : value) : bool :=
  isinstance_dict v && py_contains v "title".

(** [next((k for k, v in items if isinstance(v, dict) and "title" in v), "Name")] *)
Fixpoint find_title_key (items : dict) : string :=
  match items with
  | [] => "Name"
  | (k, v) :: items' => if is_title_prop v then k else find_title_key items'
  end.

(** [next((v for v in values if isinstance(v, dict) and "title" in v), None)] *)
Fixpoint find_title_prop (values : list value) : value :=
  match values with
  | [] => VNone
  | v :: values' => if is_title_prop v then v else find_title_prop values'
  end.

(** ["".join(parts)] *)
Fixpoint py_join (parts : list value) : outcome string :=
  match parts with
  | [] => Ok ""
  | VStr s :: parts' => t <~ py_join parts' ;; Ok (String.append s t)
  | _ :: _ => Raise TypeError
  end.

(** A collaborator that plays back a fixed list of replies, whatever it is
    asked.  The closed examples run against it. *)
Definition replay (func : endpoint) (kwargs : dict) (w : list reply) : reply * list reply :=
  match w with
  | r :: w' => (r, w')
  | [] => (Raises "no reply left", [])
  end.

(** Data for the closed examples: an identifier that passes the validator,
    pages of a listing, and an instance of [str()] (no example renders a
    value). *)
Definition hex_id : value := VStr "0123456789abcdef0123456789abcdef".

Definition page_one : value :=
  VDict [("results", VList [VInt 1; VInt 2]); ("next_cursor", VStr "cursor-2")].

Definition page_two : value :=
  VDict [("results", VList [VInt 3]); ("next_cursor", VNone)].

Definition page_empty_cursor : value :=
  VDict [("results", VList [VInt 1; VInt 2]); ("next_cursor", VStr "")].

Definition titled_page : value :=
  VDict [("id", VStr "p1"); ("url", VStr "https://notion.so/p1");
         ("properties",
          VDict [("Status", VDict [("type", VStr "select")]);
                 ("Task", VDict [("type", VStr "title");
                                 ("title", VList [VDict [("plain_text", VStr "Plan")]])])])].


Definition timestamp_sort : value :=
  VList [VDict [("timestamp", VStr "created_time"); ("direction", VStr "descending")]].

Definition no_str (v : value) : string := "".

(** ** The tool surface

    One constructor per function registered with [@mcp.tool()], with the
    arguments of its signature.  An argument whose default is [None] is a
    [value]; an argument with another default is an [option], [None]
    standing for an omitted argument. *)
Inductive tool_call : Type :=
| GetAboutMe
| ListUsers (page_size : option value) (start_cursor : value)
| GetAboutUser (user_id : value)
| CreateNotionPage (parent_id title cover icon : value)
| UpdatePage (page_id title archived cover_url icon_emoji properties : value)
| GetPagePropertyAction (page_id property_id page_size start_cursor : value)
| ArchiveNotionPage (page_id : value) (archive : option value)
| ListPages (keyword : value)
| CreateDatabase (parent_id title properties : value)
| InsertRowDatabase (database_id properties icon cover children : value)
| QueryDatabase (database_id : value) (page_size : option value) (sorts start_cursor : value)
| FetchDatabase (database_id : value)
| FetchRow (page_id : value)
| UpdateRowDatabase (page_id properties icon cover : value) (archived : option value)
| UpdateSchemaDatabase (database_id title description properties : value)
| AddMultiplePageContent (parent_block_id content_blocks after : value)
| AddPageContent (parent_block_id content_block after : value)
| AppendBlockChildren (block_id children after : value)
| UpdateBlock (block_id block_type content additional_properties : value)
| DeleteBlock (block_id : value)
| FetchBlockContents (block_id page_size start_cursor : value)
| FetchBlockMetadata (block_id : value)
| CreateComment (comment discussion_id parent_page_id : value)
| GetCommentById (parent_block_id comment_id : value)
| FetchComments (block_id : value) (page_size : option value) (start_cursor : value)
| SearchNotionPage (query page_size : option value) (start_cursor : value)
| FetchData (get_all get_databases get_pages page_size : option value) (query : value).

(** The argument a tool hands to [validate_notion_id] before anything
    else, for the tools that do. *)
Definition validated_id (c : tool_call) : option value :=
  match c with
  | GetAboutUser user_id => Some user_id
  | CreateNotionPage parent_id _ _ _ => Some parent_id
  | UpdatePage page_id _ _ _ _ _ => Some page_id
  | GetPagePropertyAction page_id _ _ _ => Some page_id
  | ArchiveNotionPage page_id _ => Some page_id
  | CreateDatabase parent_id _ _ => Some parent_id
  | InsertRowDatabase database_id _ _ _ _ => Some database_id
  | QueryDatabase database_id _ _ _ => Some database_id
  | FetchDatabase database_id => Some database_id
  | FetchRow page_id => Some page_id
  | UpdateRowDatabase page_id _ _ _ _ => Some page_id
  | UpdateSchemaDatabase database_id _ _ _ => Some database_id
  | AddMultiplePageContent parent_block_id _ _ => Some parent_block_id
  | AddPageContent parent_block_id _ _ => Some parent_block_id
  | AppendBlockChildren block_id _ _ => Some block_id
  | UpdateBlock block_id _ _ _ => Some block_id
  | DeleteBlock block_id => Some block_id
  | FetchBlockContents block_id _ _ => Some block_id
  | FetchBlockMetadata block_id => Some block_id
  | GetAboutMe | ListUsers _ _ | ListPages _
  | CreateComment _ _ _ | GetCommentById _ _ | FetchComments _ _ _
  | SearchNotionPage _ _ _ | FetchData _ _ _ _ _ => None
  end.

Section Notion.

(** The Notion client, and Python's [str()] as the f-strings use it. *)
Variable W : Type.
Variable notion : endpoint -> dict -> W -> reply * W.
Variable py_str : value -> string.

Record state : Type := mkState {
  world : W;
  calls : list (endpoint * dict)
}.

Definition M (A : Type) : Type := state -> outcome A * state.

Definition ret {A} (a : A) : M A := fun st => (Ok a, st).

Definition bind {A B} (c : M A) (k : A -> M B) : M B :=
  fun st =>
    match c st with
    | (Ok a, st') => k a st'
    | (Raise e, st') => (Raise e, st')
    end.

Definition lift {A} (c : outcome A) : M A := fun st => (c, st).

Notation "x <- c ;; k" := (bind c (fun x => k))
  (at level 61, c at next level, right associativity).

Definition safe_execute (func : endpoint) (kwargs : dict) : M value :=
  fun st =>
    let (r, w') := notion func kwargs (world st) in
    let st' := mkState w' (calls st ++ [(func, kwargs)]) in
    match r with
    | Returns data => (Ok (envelope true data VNone), st')
    | Raises msg => (Ok (envelope false (VDict []) (VStr msg)), st')
    end.

(** ** The pagination helpers *)

(** The keyword arguments of one page fetch. *)
Definition page_kwargs (id_key : string) (id page_size start_cursor : value) : dict :=
  let kwargs := [(id_key, id); ("page_size", page_size)] in
  if truthy start_cursor then dict_set "start_cursor" start_cursor kwargs else kwargs.

(** The [while True] loop the two helpers share; they differ in the
    endpoint and in the name of the identifier argument.  [None] is a loop
    that is still running when the fuel is used up. *)
Fixpoint collect_loop (func : endpoint) (id_key : string) (id page_size : value)
    (fuel : nat) (all_results : list value) (start_cursor : value) (st : state)
    : option (outcome value * state) :=
  match fuel with
  | O => None
  | S fuel' =>
      let kwargs := page_kwargs id_key id page_size start_cursor in
      match safe_execute func kwargs st with
      | (Raise e, st1) => Some (Raise e, st1)
      | (Ok res, st1) =>
          match
            (ok <~ py_getitem res "successful" ;;
             if negb (truthy ok) then Ok (inl res)
             else
               page_data <~ py_getitem res "data" ;;
               results <~ py_get page_data "results" (VList []) ;;
               items <~ py_iter results ;;
               next_cursor <~ py_get page_data "next_cursor" VNone ;;
               Ok (inr (all_results ++ items, next_cursor)))
          with
          | Raise e => Some (Raise e, st1)
          | Ok (inl res) => Some (Ok res, st1)
          | Ok (inr (all_results', next_cursor)) =>
              if negb (truthy next_cursor) then
                Some (Ok (envelope true (VDict [("results", VList all_results')]) VNone), st1)
              else
                collect_loop func id_key id page_size fuel' all_results' next_cursor st1
          end
      end
  end.

Definition _collect_all_pages_query (fuel : nat) (database_id : value)
    (page_size : option value) : state -> option (outcome value * state) :=
  collect_loop databases_query "database_id" database_id (dflt (VInt 100) page_size)
    fuel [] VNone.

Definition _collect_all_blocks (fuel : nat) (block_id : value)
    (page_size : option value) : state -> option (outcome value * state) :=
  collect_loop blocks_children_list "block_id" block_id (dflt (VInt 100) page_size)
    fuel [] VNone.

(** ** User tools *)

Definition NOTION_GET_ABOUT_ME : M value :=
  safe_execute users_me [].

(** [{"id": u.get("id"), "name": u.get("name", "Unknown")}] *)
Definition simplify_user (u : value) : outcome value :=
  id <~ py_get u "id" VNone ;;
  name <~ py_get u "name" (VStr "Unknown") ;;
  Ok (VDict [("id", id); ("name", name)]).

Definition NOTION_LIST_USERS (page_size : option value) (start_cursor : value) : M value :=
  let page_size := dflt (VInt 30) page_size in
  let kwargs := [("page_size", page_size)] in
  let kwargs :=
    if truthy start_cursor then dict_set "start_cursor" start_cursor kwargs else kwargs in
  res <- safe_execute users_list kwargs ;;
  ok <- lift (py_getitem res "successful") ;;
  if truthy ok then
    data <- lift (py_getitem res "data") ;;
    results <- lift (py_get data "results" (VList [])) ;;
    users <- lift (py_iter results) ;;
    simplified <- lift (map_outcome simplify_user users) ;;
    lift (py_setitem res "data" (VList simplified))
  else ret res.

Definition NOTION_GET_ABOUT_USER (user_id : value) : M value :=
  if negb (validate_notion_id user_id) then ret (failure "Invalid user ID format")
  else safe_execute users_retrieve [("user_id", user_id)].

(** ** Page tools *)

Definition NOTION_CREATE_NOTION_PAGE (parent_id title cover icon : value) : M value :=
  if negb (validate_notion_id parent_id) then ret (failure "Invalid parent ID format")
  else
    let kwargs :=
      [("parent", VDict [("page_id", parent_id)]);
       ("properties", VDict [("title", title_value title)])] in
    let kwargs :=
      if truthy cover
      then dict_set "cover" (VDict [("external", VDict [("url", cover)])]) kwargs
      else kwargs in
    let kwargs :=
      if truthy icon then dict_set "icon" (VDict [("emoji", icon)]) kwargs else kwargs in
    safe_execute pages_create kwargs.

(** [kwargs["properties"][key] = v], after [kwargs.setdefault("properties", {})]. *)
Definition set_property (kwargs : dict) (key : string) (v : value) : outcome dict :=
  props <~ py_getitem (VDict kwargs) "properties" ;;
  props' <~ py_setitem props key v ;;
  Ok (dict_set "properties" props' kwargs).

(** [kwargs["properties"].update(properties)] *)
Definition merge_properties (kwargs : dict) (properties : value) : outcome dict :=
  props <~ py_getitem (VDict kwargs) "properties" ;;
  items <~ py_items props ;;
  items' <~ py_update items properties ;;
  Ok (dict_set "properties" (VDict items') kwargs).

Definition NOTION_UPDATE_PAGE
    (page_id title archived cover_url icon_emoji properties : value) : M value :=
  if negb (validate_notion_id page_id) then ret (failure "Invalid page_id format")
  else
    let kwargs := [] in
    let kwargs :=
      if negb (is_none archived) then dict_set "archived" archived kwargs else kwargs in
    let kwargs :=
      if truthy cover_url
      then dict_set "cover" (VDict [("external", VDict [("url", cover_url)])]) kwargs
      else kwargs in
    let kwargs :=
      if truthy icon_emoji
      then dict_set "icon" (VDict [("emoji", icon_emoji)]) kwargs
      else kwargs in
    kwargs <-
      (if truthy title then
         let kwargs := dict_setdefault "properties" (VDict []) kwargs in
         page_meta <- safe_execute pages_retrieve [("page_id", page_id)] ;;
         ok <- lift (py_getitem page_meta "successful") ;;
         if truthy ok then
           data <- lift (py_getitem page_meta "data") ;;
           page_props <- lift (py_get data "properties" (VDict [])) ;;
           items <- lift (py_items page_props) ;;
           let title_key := find_title_key items in
           lift (set_property kwargs title_key (title_value title))
         else lift (set_property kwargs "Name" (title_value title))
       else ret kwargs) ;;
    kwargs <-
      (if truthy properties then
         let kwargs := dict_setdefault "properties" (VDict []) kwargs in
         lift (merge_properties kwargs properties)
       else ret kwargs) ;;
    safe_execute pages_update (("page_id", page_id) :: kwargs).

Definition NOTION_GET_PAGE_PROPERTY_ACTION
    (page_id property_id page_size start_cursor : value) : M value :=
  if negb (validate_notion_id page_id) then ret (failure "Invalid page_id format")
  else
    let kwargs := [("page_id", page_id); ("property_id", property_id)] in
    let kwargs := if truthy page_size then dict_set "page_size" page_size kwargs else kwargs in
    let kwargs :=
      if truthy start_cursor then dict_set "start_cursor" start_cursor kwargs else kwargs in
    safe_execute pages_properties_retrieve kwargs.

Definition NOTION_ARCHIVE_NOTION_PAGE (page_id : value) (archive : option value) : M value :=
  let archive := dflt (VBool true) archive in
  if negb (validate_notion_id page_id) then ret (failure "Invalid page_id format")
  else safe_execute pages_update [("page_id", page_id); ("archived", archive)].

(** The body of the [try] in [list_pages]; an exception leaves the title at
    ["Untitled"]. *)
Definition page_title (pg : value) : outcome value :=
  props <~ py_get pg "properties" (VDict []) ;;
  values <~ py_values props ;;
  let title_prop := find_title_prop values in
  if truthy title_prop then
    parts <~ py_get title_prop "title" (VList []) ;;
    ts <~ py_iter parts ;;
    texts <~ map_outcome (fun t => py_get t "plain_text" (VStr "")) ts ;;
    joined <~ py_join texts ;;
    Ok (if truthy (VStr joined) then VStr joined else VStr "Untitled")
  else Ok (VStr "Untitled").

Definition page_summary (pg : value) : outcome value :=
  let title :=
    match page_title pg with
    | Ok t => t
    | Raise _ => VStr "Untitled"
    end in
  id <~ py_get pg "id" VNone ;;
  url <~ py_get pg "url" VNone ;;
  Ok (VDict [("id", id); ("title", title); ("url", url)]).

Definition list_pages (keyword : value) : M value :=
  let search_kwargs :=
    [("filter", VDict [("property", VStr "object"); ("value", VStr "page")])] in
  let search_kwargs :=
    if truthy keyword then dict_set "query" keyword search_kwargs else search_kwargs in
  res <- safe_execute search search_kwargs ;;
  ok <- lift (py_getitem res "successful") ;;
  if negb (truthy ok) then ret res
  else
    data <- lift (py_getitem res "data") ;;
    results <- lift (py_get data "results" (VList [])) ;;
    pgs <- lift (py_iter results) ;;
    pages <- lift (map_outcome page_summary pgs) ;;
    ret (envelope true (VList pages) (VStr "")).

(** ** Database tools *)

Definition NOTION_CREATE_DATABASE (parent_id title properties : value) : M value :=
  if negb (validate_notion_id parent_id) then ret (failure "Invalid parent_id format")
  else
    values <- lift (py_values properties) ;;
    if negb (existsb is_title_prop values)
    then ret (failure "Database must have at least one title property")
    else
      let payload :=
        [("parent", VDict [("type", VStr "page_id"); ("page_id", parent_id)]);
         ("title", text_runs title);
         ("properties", properties)] in
      safe_execute databases_create payload.

Definition NOTION_INSERT_ROW_DATABASE
    (database_id properties icon cover children : value) : M value :=
  if negb (validate_notion_id database_id) then ret (failure "Invalid database_id format")
  else
    let payload :=
      [("parent", VDict [("database_id", database_id)]); ("properties", properties)] in
    let payload :=
      if truthy icon then dict_set "icon" (VDict [("emoji", icon)]) payload else payload in
    let payload :=
      if truthy cover
      then dict_set "cover" (VDict [("external", VDict [("url", cover)])]) payload
      else payload in
    let payload := if truthy children then dict_set "children" children payload else payload in
    safe_execute pages_create payload.

(** [{"property": s["property"], "direction": s.get("direction", "ascending")}] *)
Definition sort_entry (s : value) : outcome value :=
  property <~ py_getitem s "property" ;;
  direction <~ py_get s "direction" (VStr "ascending") ;;
  Ok (VDict [("property", property); ("direction", direction)]).

Definition NOTION_QUERY_DATABASE (database_id : value) (page_size : option value)
    (sorts start_cursor : value) : M value :=
  let page_size := dflt (VInt 10) page_size in
  if negb (validate_notion_id database_id) then ret (failure "Invalid database_id format")
  else
    let payload := [("page_size", page_size)] in
    payload <-
      (if truthy sorts then
         ss <- lift (py_iter sorts) ;;
         entries <- lift (map_outcome sort_entry ss) ;;
         ret (dict_set "sorts" (VList entries) payload)
       else ret payload) ;;
    let payload :=
      if truthy start_cursor then dict_set "start_cursor" start_cursor payload else payload in
    safe_execute databases_query (("database_id", database_id) :: payload).

Definition NOTION_FETCH_DATABASE (database_id : value) : M value :=
  if negb (validate_notion_id database_id) then ret (failure "Invalid database_id format")
  else safe_execute databases_retrieve [("database_id", database_id)].

Definition NOTION_FETCH_ROW (page_id : value) : M value :=
  if negb (validate_notion_id page_id) then ret (failure "Invalid page_id format")
  else safe_execute pages_retrieve [("page_id", page_id)].

Definition NOTION_UPDATE_ROW_DATABASE (page_id properties icon cover : value)
    (archived : option value) : M value :=
  let archived := dflt (VBool false) archived in
  if negb (validate_notion_id page_id) then ret (failure "Invalid page_id format")
  else
    let payload := [] in
    let payload :=
      if truthy properties then dict_set "properties" properties payload else payload in
    let payload :=
      if truthy icon then dict_set "icon" (VDict [("emoji", icon)]) payload else payload in
    let payload :=
      if truthy cover
      then dict_set "cover" (VDict [("external", VDict [("url", cover)])]) payload
      else payload in
    let payload :=
      if negb (is_none archived) then dict_set "archived" archived payload else payload in
    safe_execute pages_update (("page_id", page_id) :: payload).

Definition NOTION_UPDATE_SCHEMA_DATABASE
    (database_id title description properties : value) : M value :=
  if negb (validate_notion_id database_id) then ret (failure "Invalid database_id format")
  else
    let payload := [] in
    let payload :=
      if truthy title then dict_set "title" (text_runs title) payload else payload in
    let payload :=
      if truthy description
      then dict_set "description" (text_runs description) payload
      else payload in
    let payload :=
      if truthy properties then dict_set "properties" properties payload else payload in
    safe_execute databases_update (("database_id", database_id) :: payload).

(** ** Block tools *)

(** [len(v)] where the source guards it with [isinstance(v, list)]. *)
Definition py_len (v : value) : nat :=
  match v with
  | VList xs => length xs
  | VDict d => length d
  | VStr s => String.length s
  | _ => 0
  end.

(** The [for block in content_blocks] loop: the parsed blocks, or the
    envelope the loop returns at the first block it cannot read. *)
Fixpoint parse_blocks (blocks parsed_blocks : list value) : value + list value :=
  match blocks with
  | [] => inr parsed_blocks
  | block :: blocks' =>
      match block with
      | VDict d =>
          if py_eq (match dict_get "object" d with Some x => x | None => VNone end)
                   (VStr "block")
          then parse_blocks blocks' (parsed_blocks ++ [block])
          else
            match dict_get "content" d with
            | Some content =>
                parse_blocks blocks'
                  (parsed_blocks ++
                   [VDict [("object", VStr "block"); ("type", VStr "paragraph");
                           ("paragraph",
                            VDict [("rich_text", markdown_to_rich_text content)])]])
            | None => inl (failure (String.append "Invalid block format: " (py_str block)))
            end
      | _ => inl (failure (String.append "Invalid block format: " (py_str block)))
      end
  end.

Definition NOTION_ADD_MULTIPLE_PAGE_CONTENT
    (parent_block_id content_blocks after : value) : M value :=
  if negb (validate_notion_id parent_block_id) then ret (failure "Invalid parent_block_id")
  else if negb (isinstance_list content_blocks) || Nat.eqb (py_len content_blocks) 0
  then ret (failure "content_blocks must be a non-empty list")
  else if Nat.ltb 100 (py_len content_blocks)
  then ret (failure "Maximum 100 blocks per request")
  else
    blocks <- lift (py_iter content_blocks) ;;
    match parse_blocks blocks [] with
    | inl res => ret res
    | inr parsed_blocks =>
        let payload := [("children", VList parsed_blocks)] in
        let payload :=
          if negb (is_none after) then dict_set "after" after payload else payload in
        safe_execute blocks_children_append (("block_id", parent_block_id) :: payload)
    end.

Definition NOTION_ADD_PAGE_CONTENT (parent_block_id content_block after : value) : M value :=
  if negb (validate_notion_id parent_block_id) then ret (failure "Invalid parent_block_id")
  else if negb (isinstance_dict content_block)
  then ret (failure "content_block must be an object")
  else
    let payload := [("children", VList [content_block])] in
    let payload :=
      if negb (is_none after) then dict_set "after" after payload else payload in
    safe_execute blocks_children_append (("block_id", parent_block_id) :: payload).

Definition NOTION_APPEND_BLOCK_CHILDREN (block_id children after : value) : M value :=
  if negb (validate_notion_id block_id) then ret (failure "Invalid block_id")
  else if negb (isinstance_list children) || Nat.eqb (py_len children) 0
  then ret (failure "children must be a non-empty list")
  else if Nat.ltb 100 (py_len children)
  then ret (failure "Maximum 100 blocks per request")
  else
    let payload := [("children", children)] in
    let payload :=
      if negb (is_none after) then dict_set "after" after payload else payload in
    safe_execute blocks_children_append (("block_id", block_id) :: payload).

(** The block types whose content is a rich-text list. *)
Definition rich_text_types : list string :=
  ["paragraph"; "heading_1"; "heading_2"; "heading_3";
   "bulleted_list_item"; "numbered_list_item"; "quote"].

(** [{"rich_text": markdown_to_rich_text(content)}], updated with
    [additional_properties] when that is truthy. *)
Definition rich_text_payload (content additional_properties : value) : outcome value :=
  let inner := [("rich_text", markdown_to_rich_text content)] in
  if truthy additional_properties then
    inner' <~ py_update inner additional_properties ;;
    Ok (VDict inner')
  else Ok (VDict inner).

(** [safe_execute(f, block_id=block_id, **{key: v})]: building the call
    raises [TypeError] when the key is not a string, or repeats [block_id]
    or the positional parameter [func] of [safe_execute]. *)
Definition spread_block_payload (block_id key v : value) : outcome dict :=
  match key with
  | VStr k =>
      if String.eqb k "block_id" || String.eqb k "func" then Raise TypeError
      else Ok [("block_id", block_id); (k, v)]
  | _ => Raise TypeError
  end.

Definition NOTION_UPDATE_BLOCK
    (block_id block_type content additional_properties : value) : M value :=
  if negb (validate_notion_id block_id) then ret (failure "Invalid block_id")
  else
    block_payload <-
      (if existsb (py_eq block_type) (map VStr rich_text_types) then
         inner <- lift (rich_text_payload content additional_properties) ;;
         ret (inr (block_type, inner))
       else if py_eq block_type (VStr "to_do") then
         inner <- lift (rich_text_payload content additional_properties) ;;
         ret (inr (VStr "to_do", inner))
       else if negb (truthy additional_properties) then
         ret (inl (failure
                (String.append "Unsupported block_type '"
                   (String.append (py_str block_type)
                      "' without additional_properties"))))
       else ret (inr (block_type, additional_properties))) ;;
    match block_payload with
    | inl res => ret res
    | inr (key, v) =>
        kwargs <- lift (spread_block_payload block_id key v) ;;
        safe_execute blocks_update kwargs
    end.

Definition NOTION_DELETE_BLOCK (block_id : value) : M value :=
  if negb (validate_notion_id block_id) then ret (failure "Invalid block_id")
  else safe_execute blocks_update [("block_id", block_id); ("archived", VBool true)].

Definition NOTION_FETCH_BLOCK_CONTENTS (block_id page_size start_cursor : value) : M value :=
  if negb (validate_notion_id block_id) then ret (failure "Invalid block_id")
  else
    let kwargs := [("block_id", block_id)] in
    let kwargs := if truthy page_size then dict_set "page_size" page_size kwargs else kwargs in
    let kwargs :=
      if truthy start_cursor then dict_set "start_cursor" start_cursor kwargs else kwargs in
    safe_execute blocks_children_list kwargs.

Definition NOTION_FETCH_BLOCK_METADATA (block_id : value) : M value :=
  if negb (validate_notion_id block_id) then ret (failure "Invalid block_id")
  else safe_execute blocks_retrieve [("block_id", block_id)].

(** ** Comment tools *)

Definition NOTION_CREATE_COMMENT (comment discussion_id parent_page_id : value) : M value :=
  if negb (truthy discussion_id) && negb (truthy parent_page_id)
  then ret (failure "Either discussion_id or parent_page_id must be provided.")
  else
    content <- lift (py_get comment "content" (VStr "")) ;;
    let payload := [("rich_text", text_runs content)] in
    let payload :=
      if truthy discussion_id then dict_set "discussion_id" discussion_id payload
      else
        dict_set "parent"
          (VDict [("type", VStr "page_id"); ("page_id", parent_page_id)]) payload in
    safe_execute comments_create payload.

(** The [for c in ...] scan of [NOTION_GET_COMMENT_BY_ID]. *)
Fixpoint find_comment (cs : list value) (comment_id : value) : outcome value :=
  match cs with
  | [] =>
      Ok (failure
            (String.append "Comment with ID "
               (String.append (py_str comment_id) " not found.")))
  | c :: cs' =>
      id <~ py_get c "id" VNone ;;
      if py_eq id comment_id then Ok (envelope true c VNone)
      else find_comment cs' comment_id
  end.

Definition NOTION_GET_COMMENT_BY_ID (parent_block_id comment_id : value) : M value :=
  if negb (truthy parent_block_id) || negb (truthy comment_id)
  then ret (failure "parent_block_id and comment_id are required.")
  else
    let kwargs := [("block_id", parent_block_id); ("page_size", VInt 100)] in
    res <- safe_execute comments_list kwargs ;;
    ok <- lift (py_getitem res "successful") ;;
    if negb (truthy ok) then ret res
    else
      data <- lift (py_getitem res "data") ;;
      results <- lift (py_get data "results" (VList [])) ;;
      cs <- lift (py_iter results) ;;
      lift (find_comment cs comment_id).

Definition NOTION_FETCH_COMMENTS (block_id : value) (page_size : option value)
    (start_cursor : value) : M value :=
  let page_size := dflt (VInt 100) page_size in
  if negb (truthy block_id) then ret (failure "block_id is required.")
  else
    let kwargs := [("block_id", block_id); ("page_size", page_size)] in
    let kwargs :=
      if negb (is_none start_cursor) then dict_set "start_cursor" start_cursor kwargs
      else kwargs in
    safe_execute comments_list kwargs.

(** ** Search tools *)

Definition NOTION_SEARCH_NOTION_PAGE (query page_size : option value)
    (start_cursor : value) : M value :=
  let query := dflt (VStr "") query in
  let page_size := dflt (VInt 10) page_size in
  let kwargs := [("page_size", page_size); ("query", query)] in
  let kwargs :=
    if truthy start_cursor then dict_set "start_cursor" start_cursor kwargs else kwargs in
  safe_execute search kwargs.

Definition NOTION_FETCH_DATA (get_all get_databases get_pages page_size : option value)
    (query : value) : M value :=
  let get_all := dflt (VBool false) get_all in
  let get_databases := dflt (VBool false) get_databases in
  let get_pages := dflt (VBool false) get_pages in
  let page_size := dflt (VInt 100) page_size in
  let kwargs := [("page_size", page_size)] in
  let kwargs := if truthy query then dict_set "query" query kwargs else kwargs in
  if truthy get_all then safe_execute search kwargs
  else
    let kwargs :=
      if truthy get_databases
      then dict_set "filter" (VDict [("property", VStr "object"); ("value", VStr "database")])
             kwargs
      else dict_set "filter" (VDict [("property", VStr "object"); ("value", VStr "page")])
             kwargs in
    safe_execute search kwargs.

(** ** Dispatch *)

Definition run_tool (c : tool_call) : M value :=
  match c with
  | GetAboutMe => NOTION_GET_ABOUT_ME
  | ListUsers page_size start_cursor => NOTION_LIST_USERS page_size start_cursor
  | GetAboutUser user_id => NOTION_GET_ABOUT_USER user_id
  | CreateNotionPage parent_id title cover icon =>
      NOTION_CREATE_NOTION_PAGE parent_id title cover icon
  | UpdatePage page_id title archived cover_url icon_emoji properties =>
      NOTION_UPDATE_PAGE page_id title archived cover_url icon_emoji properties
  | GetPagePropertyAction page_id property_id page_size start_cursor =>
      NOTION_GET_PAGE_PROPERTY_ACTION page_id property_id page_size start_cursor
  | ArchiveNotionPage page_id archive => NOTION_ARCHIVE_NOTION_PAGE page_id archive
  | ListPages keyword => list_pages keyword
  | CreateDatabase parent_id title properties =>
      NOTION_CREATE_DATABASE parent_id title properties
  | InsertRowDatabase database_id properties icon cover children =>
      NOTION_INSERT_ROW_DATABASE database_id properties icon cover children
  | QueryDatabase database_id page_size sorts start_cursor =>
      NOTION_QUERY_DATABASE database_id page_size sorts start_cursor
  | FetchDatabase database_id => NOTION_FETCH_DATABASE database_id
  | FetchRow page_id => NOTION_FETCH_ROW page_id
  | UpdateRowDatabase page_id properties icon cover archived =>
      NOTION_UPDATE_ROW_DATABASE page_id properties icon cover archived
  | UpdateSchemaDatabase database_id title description properties =>
      NOTION_UPDATE_SCHEMA_DATABASE database_id title description properties
  | AddMultiplePageContent parent_block_id content_blocks after =>
      NOTION_ADD_MULTIPLE_PAGE_CONTENT parent_block_id content_blocks after
  | AddPageContent parent_block_id content_block after =>
      NOTION_ADD_PAGE_CONTENT parent_block_id content_block after
  | AppendBlockChildren block_id children after =>
      NOTION_APPEND_BLOCK_CHILDREN block_id children after
  | UpdateBlock block_id block_type content additional_properties =>
      NOTION_UPDATE_BLOCK block_id block_type content additional_properties
  | DeleteBlock block_id => NOTION_DELETE_BLOCK block_id
  | FetchBlockContents block_id page_size start_cursor =>
      NOTION_FETCH_BLOCK_CONTENTS block_id page_size start_cursor
  | FetchBlockMetadata block_id => NOTION_FETCH_BLOCK_METADATA block_id
  | CreateComment comment discussion_id parent_page_id =>
      NOTION_CREATE_COMMENT comment discussion_id parent_page_id
  | GetCommentById parent_block_id comment_id =>
      NOTION_GET_COMMENT_BY_ID parent_block_id comment_id
  | FetchComments block_id page_size start_cursor =>
      NOTION_FETCH_COMMENTS block_id page_size start_cursor
  | SearchNotionPage query page_size start_cursor =>
      NOTION_SEARCH_NOTION_PAGE query page_size start_cursor
  | FetchData get_all get_databases get_pages page_size query =>
      NOTION_FETCH_DATA get_all get_databases get_pages page_size query
  end.

(** The envelopes of the file: success with [None] under ["error"],
    failure with an empty mapping and a text, and the success return of
    [list_pages], which puts the empty string under ["error"]. *)
Inductive envelope_shape : tool_call -> value -> Prop :=
| shape_success : forall c data, envelope_shape c (envelope true data VNone)
| shape_failure : forall c msg, envelope_shape c (envelope false (VDict []) (VStr msg))
| shape_list_pages : forall keyword data,
    envelope_shape (ListPages keyword) (envelope true data (VStr "")).

(** ** Request shapes, for the statements about single tools *)

(** [{"property": "object", "value": kind}], the search filter. *)
Definition object_filter (kind : string) : value :=
  VDict [("property", VStr "object"); ("value", VStr kind)].

(** The filter [NOTION_FETCH_DATA] is documented to send: none for
    [get_all], databases for [get_databases], pages otherwise. *)
Definition fetch_filter (get_all get_databases : option value) : option value :=
  if truthy (dflt (VBool false) get_all) then None
  else if truthy (dflt (VBool false) get_databases) then Some (object_filter "database")
  else Some (object_filter "page").

(** The keyword arguments [NOTION_UPDATE_PAGE] builds before it looks at
    the title: the archive flag, the cover and the icon. *)
Definition update_page_base (archived cover_url icon_emoji : value) : dict :=
  let kwargs := [] in
  let kwargs :=
    if negb (is_none archived) then dict_set "archived" archived kwargs else kwargs in
  let kwargs :=
    if truthy cover_url
    then dict_set "cover" (VDict [("external", VDict [("url", cover_url)])]) kwargs
    else kwargs in
  if truthy icon_emoji then dict_set "icon" (VDict [("emoji", icon_emoji)]) kwargs
  else kwargs.

(** The property key that receives the new title, given the reply to the
    retrieval: the first title-typed property of the page, or ["Name"] when
    the page has none or the retrieval raised.  [None] when the reply is
    not a page mapping (the tool raises then). *)
Definition title_key_of (r : reply) : option string :=
  match r with
  | Raises _ => Some "Name"
  | Returns data =>
      match (page_props <~ py_get data "properties" (VDict []) ;; py_items page_props) with
      | Ok items => Some (find_title_key items)
      | Raise _ => None
      end
  end.

(** ** Runs of the collaborator, for the statements about pagination *)

(** [served func id_key id page_size cur w pages cur' w']: asked for pages
    from the cursor [cur] in state [w], the collaborator returns the pages
    [pages] one after the other, each an item list with a truthy
    continuation cursor, and is then in state [w'] with [cur'] the cursor
    to ask for next.  An item list is what the loop reads off the reply:
    the elements of its ["results"] entry, or none when it has no such
    entry. *)
Inductive served (func : endpoint) (id_key : string) (id page_size : value)
  : value -> W -> list (list value * value) -> value -> W -> Prop :=
| served_nil : forall cur w, served func id_key id page_size cur w [] cur w
| served_cons : forall cur w data w1 results items next pages cur' w',
    notion func (page_kwargs id_key id page_size cur) w = (Returns data, w1) ->
    py_get data "results" (VList []) = Ok results ->
    py_iter results = Ok items ->
    py_get data "next_cursor" VNone = Ok next ->
    truthy next = true ->
    served func id_key id page_size next w1 pages cur' w' ->
    served func id_key id page_size cur w ((items, next) :: pages) cur' w'.

(** The page that ends a listing: its continuation cursor is falsy
    (absent or [None], or another falsy value such as the empty string). *)
Definition last_page (func : endpoint) (id_key : string) (id page_size cur : value)
    (w : W) (items : list value) (w' : W) : Prop :=
  exists data results next,
    notion func (page_kwargs id_key id page_size cur) w = (Returns data, w') /\
    py_get data "results" (VList []) = Ok results /\
    py_iter results = Ok items /\
    py_get data "next_cursor" VNone = Ok next /\
    truthy next = false.

(** A whole listing: the pages [pages] and then a last page [items]. *)
Definition full_run (func : endpoint) (id_key : string) (id page_size : value)
    (w0 : W) (pages : list (list value * value)) (items : list value) (w2 : W) : Prop :=
  exists cur w1,
    served func id_key id page_size VNone w0 pages cur w1 /\
    last_page func id_key id page_size cur w1 items w2.

(** A listing whose fetch after the pages [pages] raises [msg]. *)
Definition failing_run (func : endpoint) (id_key : string) (id page_size : value)
    (w0 : W) (pages : list (list value * value)) (cur : value) (w1 : W)
    (msg : string) (w2 : W) : Prop :=
  served func id_key id page_size VNone w0 pages cur w1 /\
  notion func (page_kwargs id_key id page_size cur) w1 = (Raises msg, w2).

(** The cursors of the fetches that return [pages], the first one asked
    with [cur]. *)
Fixpoint prefix_cursors (cur : value) (pages : list (list value * value)) : list value :=
  match pages with
  | [] => []
  | (_, next) :: pages' => cur :: prefix_cursors next pages'
  end.

Definition page_calls (func : endpoint) (id_key : string) (id page_size : value)
    (cursors : list value) : list (endpoint * dict) :=
  map (fun cur => (func, page_kwargs id_key id page_size cur)) cursors.

(** The calls of a listing, written out: the first without a cursor, each
    later one with the cursor of the page before it. *)
Definition listing_calls (func : endpoint) (id_key : string) (id page_size : value)
    (pages : list (list value * value)) : list (endpoint * dict) :=
  (func, [(id_key, id); ("page_size", page_size)])
  :: map (fun p => (func, [(id_key, id); ("page_size", page_size);
                           ("start_cursor", snd p)])) pages.

(** ** Conditions and projections, for the statements about single tools *)

(** [s] is a mapping with a ["property"] entry, what [sort_entry] reads
    with a subscript. *)
Definition has_property (s : value) : bool := py_contains s "property".

(** A sufficient condition for a tool to return an envelope whatever the
    collaborator does: the tool does not read into a reply, the arguments
    it reads into are mappings, every sort object has a ["property"]
    entry, and a block type sent with extra properties is a keyword other
    than the two names the call already binds. *)
Definition exception_free (c : tool_call) : bool :=
  match c with
  | ListUsers _ _ | UpdatePage _ _ _ _ _ _ | ListPages _ | GetCommentById _ _ => false
  | CreateDatabase _ _ properties => isinstance_dict properties
  | QueryDatabase _ _ sorts _ =>
      negb (truthy sorts)
      || match sorts with
         | VList ss => forallb has_property ss
         | _ => false
         end
  | UpdateBlock _ block_type _ additional_properties =>
      negb (truthy additional_properties)
      || (isinstance_dict additional_properties
          && match block_type with
             | VStr k => negb (String.eqb k "block_id" || String.eqb k "func")
             | _ => false
             end)
  | CreateComment comment _ _ => isinstance_dict comment
  | _ => true
  end.

(** [v.get(k, default)] where [v] is known to be a mapping. *)
Definition field_or (v : value) (k : string) (default : value) : value :=
  match py_get v k default with
  | Ok x => x
  | Raise _ => default
  end.

(** What [NOTION_LIST_USERS] keeps of a user. *)
Definition user_summary (u : value) : value :=
  VDict [("id", field_or u "id" VNone); ("name", field_or u "name" (VStr "Unknown"))].

(** The test of the scan in [NOTION_GET_COMMENT_BY_ID]. *)
Definition comment_matches (comment_id c : value) : bool :=
  py_eq (field_or c "id" VNone) comment_id.

(** A block as the collaborator expects it: a mapping whose ["object"]
    entry is ["block"]. *)
Definition is_block (b : value) : Prop :=
  exists d, b = VDict d /\ dict_get "object" d = Some (VStr "block").

(** An element [NOTION_ADD_MULTIPLE_PAGE_CONTENT] can send: a block, or a
    mapping with a ["content"] entry. *)
Definition block_readable (b : value) : bool :=
  match b with
  | VDict d =>
      py_eq (field_or b "object" VNone) (VStr "block") || dict_has "content" d
  | _ => false
  end.

(** What is sent for a readable element: the element itself when it is a
    block, and otherwise a paragraph block whose one text run is its
    ["content"]. *)
Definition sent_block (b : value) : value :=
  if py_eq (field_or b "object" VNone) (VStr "block") then b
  else
    VDict [("object", VStr "block"); ("type", VStr "paragraph");
           ("paragraph",
            VDict [("rich_text",
                    VList [VDict [("type", VStr "text");
                                  ("text",
                                   VDict [("content", field_or b "content" VNone)])]])])].

(** The text of a list of title runs: the ["plain_text"] entries put
    together, a run without one counting as empty; nothing when a run is
    not a mapping or its ["plain_text"] is not a string. *)
Fixpoint plain_texts (runs : list value) : option string :=
  match runs with
  | [] => Some ""
  | VDict r :: runs' =>
      match dict_get "plain_text" r, plain_texts runs' with
      | Some (VStr s), Some t => Some (String.append s t)
      | None, Some t => Some t
      | _, _ => None
      end
  | _ :: _ => None
  end.

(** The first value of a mapping that is itself a mapping with a
    ["title"] entry. *)
Definition first_title_property (props : dict) : option dict :=
  match find is_title_prop (map snd props) with
  | Some (VDict p) => Some p
  | _ => None
  end.

(** The title [list_pages] gives a page: the text of the runs of its first
    title-typed property when that text can be read and is not empty, and
    ["Untitled"] in every other case: no ["properties"] mapping, no
    title-typed property, a ["title"] entry that is not a list, a run that
    cannot be read, or an empty text. *)
Definition summary_title (pg : value) : string :=
  match field_or pg "properties" (VDict []) with
  | VDict props =>
      match first_title_property props with
      | Some p =>
          match dict_get "title" p with
          | Some (VList runs) =>
              match plain_texts runs with
              | Some t => if String.eqb t "" then "Untitled" else t
              | None => "Untitled"
              end
          | _ => "Untitled"
          end
      | None => "Untitled"
      end
  | _ => "Untitled"
  end.

(** What [list_pages] returns for the page [pg]. *)
Definition summary_of (pg : value) : value :=
  VDict [("id", field_or pg "id" VNone); ("title", VStr (summary_title pg));
         ("url", field_or pg "url" VNone)].

(** What [NOTION_QUERY_DATABASE] keeps of a sort object. *)
Definition normalized_sort (s : value) : value :=
  VDict [("property", field_or s "property" VNone);
         ("direction", field_or s "direction" (VStr "ascending"))].

(** A collaborator whose every reply on [func] is a page with a truthy
    continuation cursor. *)
Definition always_more (func : endpoint) : Prop :=
  forall kwargs w,
    exists data w' results items next,
      notion func kwargs w = (Returns data, w') /\
      py_get data "results" (VList []) = Ok results /\
      py_iter results = Ok items /\
      py_get data "next_cursor" VNone = Ok next /\
      truthy next = true.

(** A hexadecimal digit: the class of the pattern without the dash. *)
Definition hex_digit (c : ascii) : bool :=
  hex_or_dash c && negb (Ascii.eqb c "-"%char).

(** The canonical form of an identifier, 8-4-4-4-12 hexadecimal digits. *)
Definition dashed (a b c d e : string) : string :=
  String.append a (String "-" (String.append b (String "-" (String.append c
    (String "-" (String.append d (String "-" e))))))).

(** A collaborator that answers every call with [page_one], a page with
    the cursor ["cursor-2"]. *)
Definition endless (func : endpoint) (kwargs : dict) (w : unit) : reply * unit :=
  (Returns page_one, w).

(** Replies for the closed examples. *)
Definition three_users : list value :=
  [VDict [("id", VStr "u1"); ("name", VStr "Ann"); ("type", VStr "person")];
   VDict [("id", VStr "u2")];
   VDict [("id", VStr "u3"); ("name", VNone)]].

Definition users_reply : value :=
  VDict [("results", VList three_users); ("next_cursor", VStr "cursor-2")].

Definition two_comments : list value :=
  [VDict [("id", VStr "c1")]; VDict [("id", VStr "c2")]].

Definition comments_reply : value :=
  VDict [("results", VList two_comments); ("has_more", VBool true);
         ("next_cursor", VStr "cursor-2")].

Definition two_pages : list value := [titled_page; VDict [("id", VStr "p2")]].

Definition pages_reply : value := VDict [("results", VList two_pages)].

(** ** Proof steps *)

Ltac head_of t :=
  lazymatch t with
  | ?f _ => head_of f
  | _ => t
  end.

(** One step through the body of a tool: unfold the monad, compute on the
    envelope literals, or split on the innermost test. *)
Ltac step_tool :=
  first
    [ progress cbv zeta
    | progress unfold bind, lift, ret, safe_execute
    | progress cbn [envelope failure py_getitem py_setitem dict_get dict_set
                    dict_setdefault dict_has set_property merge_properties py_items
                    rich_text_payload spread_block_payload
                    String.eqb Ascii.eqb Bool.eqb truthy negb andb orb bindO
                    world calls fst snd dflt is_none]
    | match goal with
      | |- context [match ?x with _ => _ end] =>
          lazymatch x with
          | context [match _ with _ => _ end] => fail
          | _ => destruct x eqn:?
          end
      end ].

(** * Properties *)

(** ** The validator *)

Lemma at_eol_spec (s : string) :
  at_eol s = true <-> s = "" \/ s = String newline "".
Proof.
  destruct s as [| c [| d s']]; simpl.
  - split; auto.
  - rewrite Ascii.eqb_eq. split.
    + intros ->. now right.
    + intros [H | H]; [discriminate | now inversion H].
  - split; [discriminate | intros [H | H]; discriminate].
Qed.

(** A bounded greedy repetition matches exactly when the text splits into
    [lo] to [hi] characters of the class and a rest that the remainder of
    the pattern matches. *)
Lemma re_repeat_spec (cls : ascii -> bool) (k : nat -> string -> bool) :
  forall hi lo pos s,
    re_repeat cls k lo hi pos s = true <->
    exists body rest,
      s = String.append body rest /\ string_forallb cls body = true /\
      lo <= String.length body <= hi /\ k (pos + String.length body) rest = true.
Proof.
  induction hi as [| hi IH]; intros lo pos s.
  - simpl. rewrite andb_true_iff, Nat.eqb_eq. split.
    + intros [-> Hk]. exists "", s. simpl. rewrite Nat.add_0_r. repeat split; auto.
    + intros (body & rest & -> & _ & [Hlo Hhi] & Hk).
      destruct body; simpl in *; [| lia].
      rewrite Nat.add_0_r in Hk. split; [lia | exact Hk].
  - assert (Hstop : forall s0, Nat.eqb lo 0 && k pos s0 = true ->
              exists body rest,
                s0 = String.append body rest /\ string_forallb cls body = true /\
                lo <= String.length body <= S hi /\
                k (pos + String.length body) rest = true).
    { intros s0 H. apply andb_true_iff in H as [H0 Hk]. apply Nat.eqb_eq in H0.
      exists "", s0. simpl. rewrite Nat.add_0_r. repeat split; auto; lia. }
    simpl. destruct s as [| c s'].
    + split; [apply Hstop |].
      intros (body & rest & Hs & _ & [Hlo _] & Hk).
      destruct body; simpl in *; [| discriminate].
      subst rest. rewrite Nat.add_0_r in Hk.
      apply andb_true_iff. split; [apply Nat.eqb_eq; lia | exact Hk].
    + destruct (cls c) eqn:Hc.
      * rewrite orb_true_iff, IH. split.
        -- intros [(body & rest & -> & Hall & [Hlo Hhi] & Hk) | H]; [| now apply Hstop].
           exists (String c body), rest. simpl. rewrite Hc, Hall.
           rewrite Nat.add_succ_r. repeat split; auto; lia.
        -- intros (body & rest & Hs & Hall & [Hlo Hhi] & Hk).
           destruct body as [| c' body']; simpl in *.
           ++ right. subst rest. rewrite Nat.add_0_r in Hk.
              apply andb_true_iff. split; [apply Nat.eqb_eq; lia | exact Hk].
           ++ left. inversion Hs; subst. apply andb_true_iff in Hall as [_ Hall].
              exists body', rest. rewrite Nat.add_succ_r in Hk.
              repeat split; auto; lia.
      * split; [apply Hstop |].
        intros (body & rest & Hs & Hall & [Hlo _] & Hk).
        destruct body as [| c' body']; simpl in *.
        -- subst rest. rewrite Nat.add_0_r in Hk.
           apply andb_true_iff. split; [apply Nat.eqb_eq; lia | exact Hk].
        -- inversion Hs; subst. rewrite Hc in Hall. discriminate.
Qed.

Lemma uuid_re_unfold (s : string) :
  re_match _UUID_RE s
  = re_repeat hex_or_dash (fun _ rest => at_eol rest && true) 32 36 0 s.
Proof. reflexivity. Qed.

(** What [validate_notion_id] accepts: a string of 32 to 36 hexadecimal
    digits and dashes, with or without one newline after them. *)
Lemma validate_notion_id_spec (v : value) :
  validate_notion_id v = true <->
  exists body tail,
    v = VStr (String.append body tail) /\
    string_forallb hex_or_dash body = true /\
    32 <= String.length body <= 36 /\
    (tail = "" \/ tail = String newline "").
Proof.
  unfold validate_notion_id. split.
  - destruct v as [| b | n | s | xs | kvs];
      try (cbn [isinstance_str negb]; rewrite orb_true_r; discriminate).
    cbn [truthy isinstance_str negb orb].
    destruct (String.eqb s ""); cbn [negb orb]; [discriminate |].
    rewrite uuid_re_unfold.
    intros H. apply re_repeat_spec in H as (body & rest & -> & Hall & Hlen & Hk).
    rewrite andb_true_r in Hk. apply at_eol_spec in Hk.
    exists body, rest. auto.
  - intros (body & tail & -> & Hall & Hlen & Htail).
    assert (Hne : String.eqb (String.append body tail) "" = false).
    { destruct body; simpl in *; [lia | reflexivity]. }
    cbn [truthy isinstance_str negb orb]. rewrite Hne. cbn [negb orb].
    rewrite uuid_re_unfold.
    apply re_repeat_spec. exists body, tail.
    rewrite andb_true_r. repeat split; auto; try lia.
    now apply at_eol_spec.
Qed.

Lemma validate_notion_id_rejects (v : value) :
  truthy v = false \/ isinstance_str v = false -> validate_notion_id v = false.
Proof.
  unfold validate_notion_id. intros [H | H]; rewrite H; simpl; auto.
  now rewrite orb_true_r.
Qed.

(** ** C1: identifier validation before any call *)

(** C1, as the code has it.  A tool that checks its target identifier
    ([user_id], [parent_id], [page_id], [database_id], [parent_block_id] or
    [block_id]) with [validate_notion_id] returns a failure envelope and
    leaves the state, hence the list of client calls, as it was when the
    identifier fails the pattern.  The three comment tools only test their
    identifiers for emptiness: they return a failure envelope without a
    call when the identifiers they need are falsy, and with truthy
    identifiers they issue their call with the discussion, page or block
    identifier as given, whether or not it matches the pattern
    ([comment_id] is not sent, it is compared with the comments of the
    reply).  The append tools send [after] as given whenever it is not
    [None]. *)
Theorem invalid_identifier_no_call :
  (forall (c : tool_call) (id : value) (st : state),
      validated_id c = Some id ->
      validate_notion_id id = false ->
      exists msg, run_tool c st = (Ok (failure msg), st))
  /\ (forall comment discussion_id parent_page_id st,
         truthy discussion_id = false ->
         truthy parent_page_id = false ->
         exists msg,
           run_tool (CreateComment comment discussion_id parent_page_id) st
           = (Ok (failure msg), st))
  /\ (forall parent_block_id comment_id st,
         truthy parent_block_id = false \/ truthy comment_id = false ->
         exists msg,
           run_tool (GetCommentById parent_block_id comment_id) st
           = (Ok (failure msg), st))
  /\ (forall block_id page_size start_cursor st,
         truthy block_id = false ->
         exists msg,
           run_tool (FetchComments block_id page_size start_cursor) st
           = (Ok (failure msg), st))
  /\ (forall (d : dict) discussion_id parent_page_id st,
         truthy discussion_id = true \/ truthy parent_page_id = true ->
         run_tool (CreateComment (VDict d) discussion_id parent_page_id) st
         = safe_execute comments_create
             [("rich_text",
               text_runs (match dict_get "content" d with Some x => x | None => VStr "" end));
              (if truthy discussion_id then ("discussion_id", discussion_id)
               else ("parent",
                     VDict [("type", VStr "page_id"); ("page_id", parent_page_id)]))]
             st)
  /\ (forall parent_block_id comment_id st,
         truthy parent_block_id = true ->
         truthy comment_id = true ->
         calls (snd (run_tool (GetCommentById parent_block_id comment_id) st))
         = calls st
           ++ [(comments_list, [("block_id", parent_block_id); ("page_size", VInt 100)])])
  /\ (forall block_id page_size start_cursor st,
         truthy block_id = true ->
         run_tool (FetchComments block_id page_size start_cursor) st
         = safe_execute comments_list
             (("block_id", block_id) :: ("page_size", dflt (VInt 100) page_size)
              :: (if is_none start_cursor then [] else [("start_cursor", start_cursor)]))
             st)
  /\ (forall id (units : list value) after st,
         validate_notion_id id = true ->
         0 < length units <= 100 ->
         run_tool (AppendBlockChildren id (VList units) after) st
         = safe_execute blocks_children_append
             (("block_id", id) :: ("children", VList units)
              :: (if is_none after then [] else [("after", after)])) st)
  /\ (forall id (units parsed : list value) after st,
         validate_notion_id id = true ->
         0 < length units <= 100 ->
         parse_blocks units [] = inr parsed ->
         run_tool (AddMultiplePageContent id (VList units) after) st
         = safe_execute blocks_children_append
             (("block_id", id) :: ("children", VList parsed)
              :: (if is_none after then [] else [("after", after)])) st)
  /\ (forall id (d : dict) after st,
         validate_notion_id id = true ->
         run_tool (AddPageContent id (VDict d) after) st
         = safe_execute blocks_children_append
             (("block_id", id) :: ("children", VList [VDict d])
              :: (if is_none after then [] else [("after", after)])) st).
Proof.
  split; [| split; [| split; [| split; [| split; [| split; [| split; [| split;
    [| split]]]]]]]].
  - intros c id st Hid Hbad.
    destruct c; simpl in Hid; inversion Hid; subst; simpl;
      match goal with
      | |- exists _, ?f _ = _ => unfold f
      | |- exists _, ?f _ _ = _ => unfold f
      | |- exists _, ?f _ _ _ = _ => unfold f
      | |- exists _, ?f _ _ _ _ = _ => unfold f
      | |- exists _, ?f _ _ _ _ _ = _ => unfold f
      | |- exists _, ?f _ _ _ _ _ _ = _ => unfold f
      | |- exists _, ?f _ _ _ _ _ _ _ = _ => unfold f
      end;
      cbv zeta; rewrite Hbad; simpl; eexists; reflexivity.
  - intros comment d p st Hd Hp. simpl. unfold NOTION_CREATE_COMMENT.
    rewrite Hd, Hp. simpl. eexists; reflexivity.
  - intros b c st [H | H]; simpl; unfold NOTION_GET_COMMENT_BY_ID; rewrite H; simpl.
    + eexists; reflexivity.
    + rewrite orb_true_r. eexists; reflexivity.
  - intros b ps sc st H. simpl. unfold NOTION_FETCH_COMMENTS. cbv zeta. rewrite H. simpl.
    eexists; reflexivity.
  - intros d discussion_id parent_page_id st Hgiven.
    cbn [run_tool]. unfold NOTION_CREATE_COMMENT.
    destruct (truthy discussion_id) eqn:Hd; destruct (truthy parent_page_id) eqn:Hp;
      cbn [negb andb py_get]; unfold bind, lift;
      try reflexivity.
    destruct Hgiven; discriminate.
  - intros parent_block_id comment_id st Hparent Hcomment.
    cbn [run_tool]. unfold NOTION_GET_COMMENT_BY_ID.
    rewrite Hparent, Hcomment. cbn [negb orb].
    repeat step_tool; reflexivity.
  - intros block_id page_size start_cursor st Hblock.
    cbn [run_tool]. unfold NOTION_FETCH_COMMENTS. cbv zeta. rewrite Hblock. cbn [negb].
    destruct (is_none start_cursor); reflexivity.
  - intros id units after st Hvalid [Hpos Hmax].
    cbn [run_tool]. unfold NOTION_APPEND_BLOCK_CHILDREN. rewrite Hvalid.
    cbn [negb isinstance_list orb py_len].
    destruct (Nat.eqb (length units) 0) eqn:Hzero;
      [apply Nat.eqb_eq in Hzero; lia |].
    destruct (Nat.ltb 100 (length units)) eqn:Hlong;
      [apply Nat.ltb_lt in Hlong; lia |].
    destruct (is_none after); reflexivity.
  - intros id units parsed after st Hvalid [Hpos Hmax] Hparse.
    cbn [run_tool]. unfold NOTION_ADD_MULTIPLE_PAGE_CONTENT. rewrite Hvalid.
    cbn [negb isinstance_list orb py_len py_iter].
    destruct (Nat.eqb (length units) 0) eqn:Hzero;
      [apply Nat.eqb_eq in Hzero; lia |].
    destruct (Nat.ltb 100 (length units)) eqn:Hlong;
      [apply Nat.ltb_lt in Hlong; lia |].
    unfold bind, lift, ret. rewrite Hparse.
    destruct (is_none after); reflexivity.
  - intros id d after st Hvalid.
    cbn [run_tool]. unfold NOTION_ADD_PAGE_CONTENT. rewrite Hvalid.
    cbn [negb isinstance_dict].
    destruct (is_none after); reflexivity.
Qed.

(** ** Pagination *)

Lemma safe_execute_returns func kwargs st data w' :
  notion func kwargs (world st) = (Returns data, w') ->
  safe_execute func kwargs st
  = (Ok (envelope true data VNone), mkState w' (calls st ++ [(func, kwargs)])).
Proof. intros H. unfold safe_execute. now rewrite H. Qed.

Lemma safe_execute_raises func kwargs st msg w' :
  notion func kwargs (world st) = (Raises msg, w') ->
  safe_execute func kwargs st
  = (Ok (failure msg), mkState w' (calls st ++ [(func, kwargs)])).
Proof. intros H. unfold safe_execute. now rewrite H. Qed.

(** One turn of the loop on a page with a truthy cursor. *)
Lemma collect_loop_step func id_key id page_size fuel acc cur st data w1
    results items next :
  notion func (page_kwargs id_key id page_size cur) (world st) = (Returns data, w1) ->
  py_get data "results" (VList []) = Ok results ->
  py_iter results = Ok items ->
  py_get data "next_cursor" VNone = Ok next ->
  collect_loop func id_key id page_size (S fuel) acc cur st
  = let st1 := mkState w1 (calls st ++ [(func, page_kwargs id_key id page_size cur)]) in
    if negb (truthy next)
    then Some (Ok (envelope true (VDict [("results", VList (acc ++ items))]) VNone), st1)
    else collect_loop func id_key id page_size fuel (acc ++ items) next st1.
Proof.
  intros Hcall Hres Hit Hnext.
  cbn [collect_loop]. rewrite (safe_execute_returns _ _ _ _ _ Hcall).
  cbn [envelope py_getitem dict_get String.eqb Ascii.eqb Bool.eqb bindO truthy negb].
  rewrite Hres. cbn [bindO]. rewrite Hit. cbn [bindO]. rewrite Hnext. cbn [bindO].
  reflexivity.
Qed.

(** The loop follows a served run: after as many turns as pages it has
    gathered their items, asks for the next cursor, and has issued one call
    per page. *)
Lemma collect_loop_served func id_key id page_size cur w pages cur' w' :
  served func id_key id page_size cur w pages cur' w' ->
  forall fuel acc cs,
    collect_loop func id_key id page_size (length pages + fuel) acc cur (mkState w cs)
    = collect_loop func id_key id page_size fuel (acc ++ concat (map fst pages)) cur'
        (mkState w' (cs ++ page_calls func id_key id page_size (prefix_cursors cur pages))).
Proof.
  induction 1 as [cur w | cur w data w1 results items next pages cur' w'
                            Hcall Hres Hit Hnext Htruthy Hrest IH];
    intros fuel acc cs.
  - simpl. now rewrite !app_nil_r.
  - cbn [length Nat.add].
    rewrite (collect_loop_step _ _ _ _ _ _ _ (mkState w cs) _ _ _ _ _ Hcall Hres Hit Hnext).
    cbn zeta. rewrite Htruthy. cbn [negb calls].
    rewrite IH. cbn [map fst concat prefix_cursors page_calls].
    now rewrite <- !app_assoc.
Qed.

Lemma served_cursors func id_key id page_size cur w pages cur' w' :
  served func id_key id page_size cur w pages cur' w' ->
  prefix_cursors cur pages ++ [cur'] = cur :: map snd pages
  /\ Forall (fun p => truthy (snd p) = true) pages.
Proof.
  induction 1 as [cur w | cur w data w1 results items next pages cur' w'
                            Hcall Hres Hit Hnext Htruthy Hrest [IH1 IH2]].
  - split; [reflexivity | constructor].
  - split.
    + cbn [prefix_cursors map snd]. rewrite <- app_comm_cons. now rewrite IH1.
    + constructor; assumption.
Qed.

Lemma page_kwargs_first id_key id page_size :
  page_kwargs id_key id page_size VNone = [(id_key, id); ("page_size", page_size)].
Proof. reflexivity. Qed.

Lemma page_kwargs_next id_key id page_size cur :
  String.eqb "start_cursor" id_key = false ->
  truthy cur = true ->
  page_kwargs id_key id page_size cur
  = [(id_key, id); ("page_size", page_size); ("start_cursor", cur)].
Proof.
  intros Hkey Hcur. unfold page_kwargs. rewrite Hcur.
  cbn [dict_set]. rewrite Hkey. reflexivity.
Qed.

Lemma page_calls_listing func id_key id page_size pages :
  String.eqb "start_cursor" id_key = false ->
  Forall (fun p => truthy (snd p) = true) pages ->
  page_calls func id_key id page_size (VNone :: map snd pages)
  = listing_calls func id_key id page_size pages.
Proof.
  intros Hkey Hall. unfold page_calls, listing_calls.
  cbn [map]. rewrite page_kwargs_first. f_equal.
  induction Hall as [| p pages Hp Hall IH]; [reflexivity |].
  cbn [map]. rewrite IH. now rewrite (page_kwargs_next _ _ _ _ Hkey Hp).
Qed.

(** The loop on a whole listing. *)
Lemma collect_loop_full func id_key id page_size w0 pages items w2 fuel cs :
  String.eqb "start_cursor" id_key = false ->
  full_run func id_key id page_size w0 pages items w2 ->
  length pages < fuel ->
  collect_loop func id_key id page_size fuel [] VNone (mkState w0 cs)
  = Some (Ok (envelope true
                (VDict [("results", VList (concat (map fst pages) ++ items))]) VNone),
          mkState w2 (cs ++ listing_calls func id_key id page_size pages)).
Proof.
  intros Hkey (cur & w1 & Hserved & data & results & next & Hcall & Hres & Hit & Hnext & Hend)
         Hfuel.
  replace fuel with (length pages + S (fuel - length pages - 1)) by lia.
  rewrite (collect_loop_served _ _ _ _ _ _ _ _ _ Hserved).
  rewrite (collect_loop_step _ _ _ _ _ _ _ (mkState w1 _) _ _ _ _ _ Hcall Hres Hit Hnext).
  cbn zeta. rewrite Hend. cbn [negb calls app].
  destruct (served_cursors _ _ _ _ _ _ _ _ _ Hserved) as [Hcur Hall].
  rewrite <- (page_calls_listing _ _ _ _ _ Hkey Hall), <- Hcur.
  unfold page_calls. rewrite map_app, app_assoc. reflexivity.
Qed.

(** The loop on a listing whose fetch after [pages] raises. *)
Lemma collect_loop_abort func id_key id page_size w0 pages cur w1 msg w2 fuel cs :
  failing_run func id_key id page_size w0 pages cur w1 msg w2 ->
  length pages < fuel ->
  let st1 := mkState w1 (cs ++ page_calls func id_key id page_size
                                  (prefix_cursors VNone pages)) in
  collect_loop func id_key id page_size fuel [] VNone (mkState w0 cs)
  = Some (safe_execute func (page_kwargs id_key id page_size cur) st1)
  /\ safe_execute func (page_kwargs id_key id page_size cur) st1
     = (Ok (failure msg),
        mkState w2 (calls st1 ++ [(func, page_kwargs id_key id page_size cur)])).
Proof.
  intros [Hserved Hcall] Hfuel st1.
  assert (Hexec := safe_execute_raises func _ st1 msg w2 Hcall).
  split; [| exact Hexec].
  replace fuel with (length pages + S (fuel - length pages - 1)) by lia.
  rewrite (collect_loop_served _ _ _ _ _ _ _ _ _ Hserved).
  fold st1. cbn [collect_loop]. rewrite Hexec. reflexivity.
Qed.

Lemma listing_calls_length func id_key id page_size pages :
  length (listing_calls func id_key id page_size pages) = S (length pages).
Proof. unfold listing_calls. cbn [length]. now rewrite length_map. Qed.

Lemma failing_run_calls func id_key id page_size w0 pages cur w1 msg w2 cs :
  String.eqb "start_cursor" id_key = false ->
  failing_run func id_key id page_size w0 pages cur w1 msg w2 ->
  (cs ++ page_calls func id_key id page_size (prefix_cursors VNone pages))
    ++ [(func, page_kwargs id_key id page_size cur)]
  = cs ++ listing_calls func id_key id page_size pages.
Proof.
  intros Hkey [Hserved _].
  destruct (served_cursors _ _ _ _ _ _ _ _ _ Hserved) as [Hcur Hall].
  rewrite <- (page_calls_listing _ _ _ _ _ Hkey Hall), <- Hcur.
  unfold page_calls. now rewrite map_app, app_assoc.
Qed.

(** C3, as the code has it.  When the collaborator returns the pages
    P1 .. Pn, every page but the last with a truthy (non-empty) cursor and
    the last with a falsy cursor (absent, [None] or empty), both helpers,
    given fuel for n turns, issue exactly n calls, the first without a
    cursor and each later one with the cursor of the page before it, and
    return [{"successful": True, "data": {"results": L1 ++ .. ++ Ln},
    "error": None}]. *)
Theorem pagination_collects_every_page :
  forall (id : value) (page_size : option value) (w0 : W) (cs : list (endpoint * dict))
         (pages : list (list value * value)) (items : list value) (w2 : W) (fuel : nat),
    length pages < fuel ->
    let size := dflt (VInt 100) page_size in
    (full_run databases_query "database_id" id size w0 pages items w2 ->
     _collect_all_pages_query fuel id page_size (mkState w0 cs)
     = Some (Ok (envelope true
                   (VDict [("results", VList (concat (map fst pages) ++ items))]) VNone),
             mkState w2 (cs ++ listing_calls databases_query "database_id" id size pages)))
    /\ (full_run blocks_children_list "block_id" id size w0 pages items w2 ->
        _collect_all_blocks fuel id page_size (mkState w0 cs)
        = Some (Ok (envelope true
                      (VDict [("results", VList (concat (map fst pages) ++ items))]) VNone),
                mkState w2 (cs ++ listing_calls blocks_children_list "block_id" id size pages)))
    /\ (forall func id_key,
           length (listing_calls func id_key id size pages) = S (length pages)).
Proof.
  intros id page_size w0 cs pages items w2 fuel Hfuel size.
  repeat split.
  - intros Hrun. unfold _collect_all_pages_query.
    now apply collect_loop_full.
  - intros Hrun. unfold _collect_all_blocks.
    now apply collect_loop_full.
  - intros. apply listing_calls_length.
Qed.

(** C4.  When the fetch after the pages P1 .. Pk-1 raises, both helpers
    return what [safe_execute] returned for that fetch, unchanged: the
    failure envelope with the text of the exception, in which nothing of
    the items gathered so far appears; the calls issued are the k fetches
    and no more. *)
Theorem pagination_aborts_on_failure :
  forall (id : value) (page_size : option value) (w0 : W) (cs : list (endpoint * dict))
         (pages : list (list value * value)) (cur : value) (w1 : W) (msg : string)
         (w2 : W) (fuel : nat),
    length pages < fuel ->
    let size := dflt (VInt 100) page_size in
    (failing_run databases_query "database_id" id size w0 pages cur w1 msg w2 ->
     let st1 := mkState w1 (cs ++ page_calls databases_query "database_id" id size
                                     (prefix_cursors VNone pages)) in
     let failed := safe_execute databases_query (page_kwargs "database_id" id size cur) st1 in
     _collect_all_pages_query fuel id page_size (mkState w0 cs) = Some failed
     /\ failed = (Ok (envelope false (VDict []) (VStr msg)),
                  mkState w2 (cs ++ listing_calls databases_query "database_id" id size pages)))
    /\ (failing_run blocks_children_list "block_id" id size w0 pages cur w1 msg w2 ->
        let st1 := mkState w1 (cs ++ page_calls blocks_children_list "block_id" id size
                                        (prefix_cursors VNone pages)) in
        let failed := safe_execute blocks_children_list (page_kwargs "block_id" id size cur) st1 in
        _collect_all_blocks fuel id page_size (mkState w0 cs) = Some failed
        /\ failed = (Ok (envelope false (VDict []) (VStr msg)),
                     mkState w2 (cs ++ listing_calls blocks_children_list "block_id" id size pages))).
Proof.
  intros id page_size w0 cs pages cur w1 msg w2 fuel Hfuel size.
  split; intros Hrun st1 failed;
    destruct (collect_loop_abort _ _ _ _ _ _ _ _ _ _ _ cs Hrun Hfuel) as [Hloop Hexec];
    (split; [exact Hloop |]);
    subst failed st1; rewrite Hexec; cbn [calls];
    assert (Hcalls := fun Hkey => failing_run_calls _ _ _ _ _ _ _ _ _ _ cs Hkey Hrun);
    rewrite Hcalls by reflexivity; reflexivity.
Qed.

(** ** Dictionaries *)

Lemma dict_get_set_same (k : string) (v : value) (d : dict) :
  dict_get k (dict_set k v d) = Some v.
Proof.
  induction d as [| [k' v'] d IH]; simpl.
  - now rewrite String.eqb_refl.
  - destruct (String.eqb k k') eqn:E; simpl; rewrite E; auto.
Qed.

Lemma dict_get_set_other (k k' : string) (v : value) (d : dict) :
  String.eqb k k' = false ->
  dict_get k (dict_set k' v d) = dict_get k d.
Proof.
  intros Hne. induction d as [| [k0 v0] d IH]; simpl.
  - now rewrite Hne.
  - destruct (String.eqb k' k0) eqn:E; simpl.
    + apply String.eqb_eq in E. subst k0. now rewrite Hne.
    + now rewrite IH.
Qed.

Lemma dict_get_update_other (k : string) (e d : dict) :
  dict_has k e = false ->
  dict_get k (dict_update d e) = dict_get k d.
Proof.
  unfold dict_update, dict_has.
  revert d. induction e as [| [k' v'] e IH]; intros d H; simpl; [reflexivity |].
  simpl in H. destruct (String.eqb k k') eqn:E; [discriminate |].
  rewrite IH by exact H. now apply dict_get_set_other.
Qed.

(** ** C9: the archive flag of a row update *)


(** ** C10: the flags of [NOTION_FETCH_DATA] *)

(** C10.  Two calls of [NOTION_FETCH_DATA] that differ only in [get_pages]
    do the same; the one request sent is a search whose filter is set by
    [get_all] and [get_databases] alone; with [get_databases] and
    [get_pages] both true (and [get_all] left out) the filter asks for
    databases. *)
Theorem fetch_data_ignores_get_pages :
  forall (get_all get_databases get_pages get_pages' page_size : option value)
         (query : value) (st : state),
    NOTION_FETCH_DATA get_all get_databases get_pages page_size query st
    = NOTION_FETCH_DATA get_all get_databases get_pages' page_size query st
    /\ (exists kwargs,
           calls (snd (NOTION_FETCH_DATA get_all get_databases get_pages page_size query st))
           = calls st ++ [(search, kwargs)]
           /\ dict_get "filter" kwargs = fetch_filter get_all get_databases
           /\ dict_get "page_size" kwargs = Some (dflt (VInt 100) page_size)
           /\ dict_get "query" kwargs = (if truthy query then Some query else None))
    /\ (exists kwargs,
           calls (snd (NOTION_FETCH_DATA None (Some (VBool true)) (Some (VBool true))
                         page_size query st))
           = calls st ++ [(search, kwargs)]
           /\ dict_get "filter" kwargs = Some (object_filter "database")).
Proof.
  intros get_all get_databases get_pages get_pages' page_size query st.
  split; [reflexivity |].
  split.
  - unfold NOTION_FETCH_DATA, fetch_filter. cbv zeta.
    destruct (truthy (dflt (VBool false) get_all)).
    + unfold safe_execute.
      match goal with |- context [notion ?f ?k ?w] =>
        exists k; destruct (notion f k w) as [r w'] end.
      split; [destruct r; reflexivity |].
      destruct (truthy query); repeat split; reflexivity.
    + unfold safe_execute.
      match goal with |- context [notion ?f ?k ?w] =>
        exists k; destruct (notion f k w) as [r w'] end.
      split; [destruct r; reflexivity |].
      destruct (truthy (dflt (VBool false) get_databases)), (truthy query);
        repeat split; reflexivity.
  - unfold NOTION_FETCH_DATA. cbn [dflt truthy]. unfold safe_execute.
    match goal with |- context [notion ?f ?k ?w] =>
      exists k; destruct (notion f k w) as [r w'] end.
    split; [destruct r; reflexivity |].
    destruct (truthy query); reflexivity.
Qed.

(** ** C7: the key of a page title update *)

Lemma update_page_base_properties archived cover_url icon_emoji v :
  dict_set "properties" v
    (dict_setdefault "properties" (VDict []) (update_page_base archived cover_url icon_emoji))
  = update_page_base archived cover_url icon_emoji ++ [("properties", v)]
  /\ py_getitem
       (VDict (dict_setdefault "properties" (VDict [])
                 (update_page_base archived cover_url icon_emoji))) "properties"
     = Ok (VDict []).
Proof.
  unfold update_page_base. cbv zeta.
  destruct (negb (is_none archived)), (truthy cover_url), (truthy icon_emoji);
    split; reflexivity.
Qed.

Lemma dict_get_app_last (k : string) (v : value) (base : dict) :
  dict_has k base = false ->
  dict_get k (base ++ [(k, v)]) = Some v.
Proof.
  unfold dict_has. induction base as [| [k' x] base IH]; simpl; intros H.
  - now rewrite String.eqb_refl.
  - destruct (String.eqb k k'); [discriminate | now apply IH].
Qed.

Lemma dict_set_app_last (k : string) (v v' : value) (base : dict) :
  dict_has k base = false ->
  dict_set k v' (base ++ [(k, v)]) = base ++ [(k, v')].
Proof.
  unfold dict_has. induction base as [| [k' x] base IH]; simpl; intros H.
  - now rewrite String.eqb_refl.
  - destruct (String.eqb k k'); [discriminate | now rewrite IH].
Qed.

Lemma update_page_merge base (props : dict) (extra : dict) :
  dict_has "properties" base = false ->
  merge_properties
    (dict_setdefault "properties" (VDict []) (base ++ [("properties", VDict props)]))
    (VDict extra)
  = Ok (base ++ [("properties", VDict (dict_update props extra))]).
Proof.
  intros Hbase.
  assert (Hdefault :
    dict_setdefault "properties" (VDict []) (base ++ [("properties", VDict props)])
    = base ++ [("properties", VDict props)]).
  { unfold dict_setdefault, dict_has. now rewrite (dict_get_app_last _ _ _ Hbase). }
  unfold merge_properties. rewrite Hdefault.
  cbn [py_getitem]. rewrite (dict_get_app_last _ _ _ Hbase).
  cbn [bindO py_items py_update].
  now rewrite (dict_set_app_last _ _ _ _ Hbase).
Qed.

Lemma update_page_base_no_properties archived cover_url icon_emoji :
  dict_has "properties" (update_page_base archived cover_url icon_emoji) = false.
Proof.
  unfold update_page_base. cbv zeta.
  destruct (negb (is_none archived)), (truthy cover_url), (truthy icon_emoji); reflexivity.
Qed.

(** C7, as the code has it.  For a [page_id] that passes the validator and
    a truthy (non-empty) title, [NOTION_UPDATE_PAGE] first retrieves the
    page, puts the new title under the first title-typed property key of
    the retrieved page, or under ["Name"] when the page has none or the
    retrieval raised, and then sends the update; the caller's [properties],
    when given, are merged over that entry, so the title stays under its
    key when [properties] has no entry for the same key. *)
Theorem update_page_title_key :
  forall (page_id title archived cover_url icon_emoji properties : value) (st : state)
         (r : reply) (w1 : W) (key : string) (extra : dict),
    validate_notion_id page_id = true ->
    truthy title = true ->
    notion pages_retrieve [("page_id", page_id)] (world st) = (r, w1) ->
    title_key_of r = Some key ->
    properties = VDict extra \/ (truthy properties = false /\ extra = []) ->
    let sent_properties := dict_update [(key, title_value title)] extra in
    let kwargs :=
      ("page_id", page_id)
      :: update_page_base archived cover_url icon_emoji
         ++ [("properties", VDict sent_properties)] in
    NOTION_UPDATE_PAGE page_id title archived cover_url icon_emoji properties st
    = safe_execute pages_update kwargs
        (mkState w1 (calls st ++ [(pages_retrieve, [("page_id", page_id)])]))
    /\ (dict_has key extra = false ->
        dict_get key sent_properties = Some (title_value title)).
Proof.
  intros page_id title archived cover_url icon_emoji properties st r w1 key extra
         Hvalid Htitle Hcall Hkey Hprops sent_properties kwargs.
  split.
  - unfold NOTION_UPDATE_PAGE. rewrite Hvalid, Htitle. cbn [negb]. cbv zeta.
    fold (update_page_base archived cover_url icon_emoji).
    set (base := update_page_base archived cover_url icon_emoji) in *.
    destruct (update_page_base_properties archived cover_url icon_emoji
                (VDict [(key, title_value title)])) as [Hset Hget].
    fold base in Hset, Hget.
    assert (Hstep :
      bind (safe_execute pages_retrieve [("page_id", page_id)])
        (fun page_meta =>
           bind (lift (py_getitem page_meta "successful"))
             (fun ok =>
                if truthy ok then
                  bind (lift (py_getitem page_meta "data"))
                    (fun data =>
                       bind (lift (py_get data "properties" (VDict [])))
                         (fun page_props =>
                            bind (lift (py_items page_props))
                              (fun items =>
                                 lift (set_property
                                         (dict_setdefault "properties" (VDict []) base)
                                         (find_title_key items) (title_value title)))))
                else
                  lift (set_property (dict_setdefault "properties" (VDict []) base)
                          "Name" (title_value title)))) st
      = (Ok (base ++ [("properties", VDict [(key, title_value title)])]),
         mkState w1 (calls st ++ [(pages_retrieve, [("page_id", page_id)])]))).
    { unfold bind at 1. unfold safe_execute. rewrite Hcall.
      destruct r as [data | msg]; cbn [title_key_of] in Hkey.
      - unfold bind, lift.
        cbn [envelope py_getitem dict_get String.eqb Ascii.eqb Bool.eqb truthy].
        destruct (py_get data "properties" (VDict [])) as [page_props |];
          cbn [bindO] in Hkey; [| discriminate].
        destruct (py_items page_props) as [items |]; [| discriminate].
        inversion Hkey; subst key.
        unfold set_property. rewrite Hget. cbn [bindO py_setitem dict_set].
        now rewrite Hset.
      - inversion Hkey; subst key. unfold bind, lift.
        cbn [envelope py_getitem dict_get String.eqb Ascii.eqb Bool.eqb truthy].
        unfold set_property. rewrite Hget. cbn [bindO py_setitem dict_set].
        now rewrite Hset. }
    unfold bind at 1. rewrite Hstep.
    destruct Hprops as [-> | [Hfalsy ->]].
    + destruct (truthy (VDict extra)) eqn:Htr.
      * unfold bind at 1. unfold lift at 1.
        rewrite update_page_merge by apply update_page_base_no_properties.
        reflexivity.
      * destruct extra; [| discriminate]. unfold bind, ret. reflexivity.
    + rewrite Hfalsy. unfold bind, ret. reflexivity.
  - intros Hfresh. subst sent_properties.
    rewrite dict_get_update_other by exact Hfresh.
    simpl. now rewrite String.eqb_refl.
Qed.

(** ** C8: the limits of the append tools *)


(** ** C2: an exception that leaves a tool *)

(** C2 fails on the code: [NOTION_QUERY_DATABASE] reads [s["property"]]
    outside [safe_execute], so a sort object without that key (a timestamp
    sort) makes the tool raise [KeyError] instead of returning an
    envelope; no call has been issued. *)
Theorem query_database_timestamp_sort_raises :
  forall st : state,
    run_tool (QueryDatabase hex_id None timestamp_sort VNone) st
    = (Raise (KeyError "property"), st).
Proof. intros st. reflexivity. Qed.

(** ** The shape of every returned envelope *)

Lemma find_comment_shape c cs comment_id v :
  find_comment cs comment_id = Ok v -> envelope_shape c v.
Proof.
  induction cs as [| x cs IH]; simpl.
  - intros H. inversion H. apply shape_failure.
  - destruct (py_get x "id" VNone) as [id |]; simpl; [| discriminate].
    destruct (py_eq id comment_id); [| exact IH].
    intros H. inversion H. apply shape_success.
Qed.

Lemma parse_blocks_shape c blocks parsed res :
  parse_blocks blocks parsed = inl res -> envelope_shape c res.
Proof.
  revert parsed. induction blocks as [| b blocks IH]; intros parsed; simpl.
  - discriminate.
  - destruct b; try (intros H; inversion H; apply shape_failure).
    destruct (py_eq _ _); [apply IH |].
    destruct (dict_get "content" kvs); [apply IH |].
    intros H; inversion H; apply shape_failure.
Qed.

(** Whatever a tool returns is an envelope of one of the three shapes;
    the third, with the empty string under ["error"], comes from
    [list_pages] alone. *)
Lemma tool_result_shape (c : tool_call) (st st' : state) (v : value) :
  run_tool c st = (Ok v, st') -> envelope_shape c v.
Proof.
  destruct c; cbn [run_tool];
    match goal with
    | |- ?f = _ -> _ => let h := head_of f in unfold h
    end.
  all: repeat step_tool.
  all: intros Hrun; try discriminate Hrun; inversion Hrun; subst;
    first [ apply shape_success | apply shape_failure | apply shape_list_pages
          | eapply find_comment_shape; eassumption
          | eapply parse_blocks_shape; eassumption ].
Qed.

(** A failure envelope of any tool has an empty mapping under ["data"]
    and a text under ["error"]. *)
Lemma tool_failure_shape (c : tool_call) (st st' : state) (v : value) :
  run_tool c st = (Ok v, st') ->
  py_getitem v "successful" = Ok (VBool false) ->
  exists msg, v = envelope false (VDict []) (VStr msg).
Proof.
  intros Hrun Hfail. destruct (tool_result_shape _ _ _ _ Hrun); try discriminate.
  eexists; reflexivity.
Qed.

(** ** C5: the envelope of [list_pages] *)

(** C5 fails on the code: whenever [list_pages] returns a successful
    envelope, its ["error"] entry is the empty string and not [None],
    which every other success return of the file uses. *)
Theorem list_pages_success_error_is_empty_string :
  forall (keyword : value) (st st' : state) (v : value),
    list_pages keyword st = (Ok v, st') ->
    py_getitem v "successful" = Ok (VBool true) ->
    py_getitem v "error" = Ok (VStr "") /\ py_getitem v "error" <> Ok VNone.
Proof.
  intros keyword st st' v Hrun Hok.
  assert (Hv : exists data, v = envelope true data (VStr "")).
  { unfold list_pages in Hrun. cbv zeta in Hrun.
    unfold bind at 1 in Hrun. unfold safe_execute in Hrun.
    destruct (notion search _ (world st)) as [[data | msg] w'].
    - unfold bind, lift, ret in Hrun.
      cbn [envelope py_getitem dict_get String.eqb Ascii.eqb Bool.eqb truthy negb] in Hrun.
      destruct (py_get data "results" (VList [])) as [results |]; [| discriminate].
      destruct (py_iter results) as [pgs |]; [| discriminate].
      destruct (map_outcome page_summary pgs) as [pages |]; [| discriminate].
      inversion Hrun. eexists; reflexivity.
    - unfold bind, lift, ret in Hrun.
      cbn [envelope py_getitem dict_get String.eqb Ascii.eqb Bool.eqb truthy negb] in Hrun.
      inversion Hrun; subst v. discriminate. }
  destruct Hv as [data ->]. split; [reflexivity | discriminate].
Qed.

(** ** C6: what the pattern accepts *)

Lemma string_forallb_app (f : ascii -> bool) (s t : string) :
  string_forallb f (String.append s t) = string_forallb f s && string_forallb f t.
Proof.
  induction s as [| c s IH]; simpl; [reflexivity |].
  now rewrite IH, andb_assoc.
Qed.

(** C6 fails on the code: [$] also matches before a final newline, so 32
    to 36 hexadecimal digits and dashes followed by a newline are
    accepted, although the newline is neither a hexadecimal digit nor a
    dash. *)
Theorem validate_notion_id_accepts_trailing_newline :
  forall body : string,
    string_forallb hex_or_dash body = true ->
    32 <= String.length body <= 36 ->
    validate_notion_id (VStr (String.append body (String newline ""))) = true
    /\ string_forallb hex_or_dash (String.append body (String newline "")) = false.
Proof.
  intros body Hall Hlen. split.
  - apply validate_notion_id_spec. exists body, (String newline ""). auto.
  - rewrite string_forallb_app, Hall. reflexivity.
Qed.

(** ** Beyond the claims: what every tool does *)

(** X1.  Whatever a tool returns is one of three dictionaries: a success
    with [None] under ["error"], a failure with an empty mapping under
    ["data"] and a text under ["error"], or, from [list_pages] only, a
    success with the empty string under ["error"]. *)
Theorem every_tool_returns_an_envelope :
  forall (c : tool_call) (st st' : state) (v : value),
    run_tool c st = (Ok v, st') ->
    (exists data, v = envelope true data VNone)
    \/ (exists msg, v = envelope false (VDict []) (VStr msg))
    \/ (exists keyword data, c = ListPages keyword /\ v = envelope true data (VStr "")).
Proof.
  intros c st st' v Hrun.
  destruct (tool_result_shape _ _ _ _ Hrun).
  - left. eexists; reflexivity.
  - right; left. eexists; reflexivity.
  - right; right. do 2 eexists. split; reflexivity.
Qed.

(** X2.  A tool only adds to the list of client calls, and adds at most
    two; only [NOTION_UPDATE_PAGE] with a truthy title adds two (the
    retrieval and the update).  This holds on the paths that raise too. *)
Theorem tools_issue_at_most_two_calls :
  forall (c : tool_call) (st : state),
    exists sent,
      calls (snd (run_tool c st)) = calls st ++ sent
      /\ length sent <= 2
      /\ (1 < length sent ->
          exists page_id title archived cover_url icon_emoji properties,
            c = UpdatePage page_id title archived cover_url icon_emoji properties
            /\ truthy title = true).
Proof.
  intros c st.
  destruct c; cbn [run_tool];
    match goal with
    | |- exists _, calls (snd ?f) = _ /\ _ => let h := head_of f in unfold h
    end.
  all: repeat step_tool.
  all: rewrite <- ?app_assoc;
    first [ eexists; split; [reflexivity |]
          | exists []; split; [now rewrite app_nil_r |] ];
    cbn [length app]; (split; [lia |]); intros Hlen;
    first [ exfalso; lia | do 6 eexists; split; [reflexivity | eassumption] ].
Qed.

Lemma map_outcome_cons {A B} (f : A -> outcome B) (x : A) (xs : list A) :
  map_outcome f (x :: xs) = (y <~ f x ;; ys <~ map_outcome f xs ;; Ok (y :: ys)).
Proof. reflexivity. Qed.

Lemma sort_entries_total (ss : list value) :
  forallb has_property ss = true ->
  exists entries, map_outcome sort_entry ss = Ok entries.
Proof.
  induction ss as [| s ss IH]; cbn [forallb]; intros H.
  - eexists; reflexivity.
  - apply andb_true_iff in H as [Hs Hss]. destruct (IH Hss) as [entries Hentries].
    unfold has_property, py_contains in Hs. destruct s; try discriminate.
    unfold dict_has in Hs. rewrite map_outcome_cons, Hentries.
    unfold sort_entry, py_getitem, py_get.
    destruct (dict_get "property" kvs); [| discriminate].
    cbn [bindO]. eexists; reflexivity.
Qed.

Lemma py_eq_str (a : value) (s : string) :
  py_eq a (VStr s) = true -> a = VStr s.
Proof.
  destruct a; cbn [py_eq]; try discriminate.
  intros H. apply String.eqb_eq in H. now subst.
Qed.

(** A block type the tool knows is a string, and neither of the names the
    call already binds. *)
Lemma known_block_type (block_type : value) :
  existsb (py_eq block_type) (map VStr rich_text_types) = true
  \/ py_eq block_type (VStr "to_do") = true ->
  exists k, block_type = VStr k
            /\ String.eqb k "block_id" || String.eqb k "func" = false.
Proof.
  intros [H | H].
  - unfold rich_text_types in H. cbn [map existsb] in H.
    repeat (apply orb_true_iff in H as [H | H]);
      try discriminate; apply py_eq_str in H; subst; eexists; split; reflexivity.
  - apply py_eq_str in H; subst. eexists; split; reflexivity.
Qed.

(** X3.  A tool that meets [exception_free] returns an envelope: no
    exception leaves it, whatever the collaborator does. *)
Theorem exception_free_tools_return :
  forall (c : tool_call) (st : state),
    exception_free c = true ->
    exists v st', run_tool c st = (Ok v, st').
Proof.
  intros c st Hfree.
  destruct c; cbn [exception_free] in Hfree; try discriminate; cbn [run_tool].
  all: try (match goal with
            | |- exists _ _, ?f = _ => let h := head_of f in unfold h
            end;
            now (repeat step_tool; do 2 eexists; reflexivity)).
  - (* NOTION_CREATE_DATABASE *)
    unfold NOTION_CREATE_DATABASE.
    destruct properties; try discriminate. cbn [py_values].
    repeat step_tool; do 2 eexists; reflexivity.
  - (* NOTION_QUERY_DATABASE *)
    unfold NOTION_QUERY_DATABASE.
    assert (Hsorts : truthy sorts = false
                     \/ exists ss entries, sorts = VList ss
                                           /\ map_outcome sort_entry ss = Ok entries).
    { apply orb_true_iff in Hfree as [H | H].
      - left. now apply negb_true_iff.
      - right. destruct sorts; try discriminate.
        destruct (sort_entries_total _ H) as [entries He]. eauto. }
    destruct Hsorts as [Hs | (ss & entries & -> & He)].
    + cbv zeta. rewrite Hs. repeat step_tool; do 2 eexists; reflexivity.
    + cbv zeta. cbn [py_iter]. unfold bind, lift, ret. rewrite He.
      repeat step_tool; do 2 eexists; reflexivity.
  - (* NOTION_ADD_MULTIPLE_PAGE_CONTENT *)
    unfold NOTION_ADD_MULTIPLE_PAGE_CONTENT.
    destruct content_blocks; cbn [isinstance_list py_iter];
      repeat step_tool; do 2 eexists; reflexivity.
  - (* NOTION_UPDATE_BLOCK *)
    unfold NOTION_UPDATE_BLOCK.
    destruct (validate_notion_id block_id); cbn [negb];
      [| do 2 eexists; reflexivity].
    destruct (truthy additional_properties) eqn:Hextra; cbn [negb orb] in Hfree.
    + apply andb_true_iff in Hfree as [Hdict Hkey].
      destruct additional_properties; try discriminate.
      destruct block_type as [| | | k | |]; try discriminate.
      apply negb_true_iff in Hkey.
      unfold rich_text_payload. rewrite Hextra. cbn [py_update bindO].
      destruct (existsb (py_eq (VStr k)) (map VStr rich_text_types));
        [| destruct (py_eq (VStr k) (VStr "to_do"))];
        unfold bind, lift, ret; cbn [spread_block_payload negb];
        rewrite ?Hkey; repeat step_tool; do 2 eexists; reflexivity.
    + unfold rich_text_payload. rewrite Hextra.
      destruct (existsb (py_eq block_type) (map VStr rich_text_types)) eqn:Hknown.
      * destruct (known_block_type block_type (or_introl Hknown)) as (k & -> & Hk).
        unfold bind, lift, ret. cbn [spread_block_payload]. rewrite Hk.
        repeat step_tool; do 2 eexists; reflexivity.
      * destruct (py_eq block_type (VStr "to_do")) eqn:Htodo.
        -- unfold bind, lift, ret. cbn [negb spread_block_payload String.eqb Ascii.eqb
                                          Bool.eqb orb].
           repeat step_tool; do 2 eexists; reflexivity.
        -- cbn [negb]. unfold bind, lift, ret. do 2 eexists; reflexivity.
  - (* NOTION_CREATE_COMMENT *)
    unfold NOTION_CREATE_COMMENT.
    destruct comment; try discriminate. cbn [py_get].
    repeat step_tool; do 2 eexists; reflexivity.
Qed.

(** ** Beyond the claims: projections of replies *)

Lemma simplify_users (us : list value) :
  forallb isinstance_dict us = true ->
  map_outcome simplify_user us = Ok (map user_summary us).
Proof.
  induction us as [| u us IH]; cbn [forallb map]; intros H; [reflexivity |].
  apply andb_true_iff in H as [Hu Hus].
  rewrite map_outcome_cons, (IH Hus).
  destruct u; try discriminate. reflexivity.
Qed.

(** X4.  On a reply whose ["results"] is a list of user mappings,
    [NOTION_LIST_USERS] returns, in order, one [{"id", "name"}] mapping per
    user and nothing else of the reply (the continuation cursor is not
    returned); the name is ["Unknown"] only for a user without a ["name"]
    entry. *)
Theorem list_users_projection :
  forall (page_size : option value) (start_cursor : value) (st : state)
         (data : value) (w' : W) (us : list value),
    let kwargs :=
      if truthy start_cursor
      then [("page_size", dflt (VInt 30) page_size); ("start_cursor", start_cursor)]
      else [("page_size", dflt (VInt 30) page_size)] in
    notion users_list kwargs (world st) = (Returns data, w') ->
    py_get data "results" (VList []) = Ok (VList us) ->
    forallb isinstance_dict us = true ->
    NOTION_LIST_USERS page_size start_cursor st
    = (Ok (envelope true (VList (map user_summary us)) VNone),
       mkState w' (calls st ++ [(users_list, kwargs)])).
Proof.
  intros page_size start_cursor st data w' us kwargs Hcall Hres Hdicts.
  unfold NOTION_LIST_USERS. cbv zeta.
  assert (Hkw : (if truthy start_cursor
                 then dict_set "start_cursor" start_cursor
                        [("page_size", dflt (VInt 30) page_size)]
                 else [("page_size", dflt (VInt 30) page_size)]) = kwargs).
  { subst kwargs. destruct (truthy start_cursor); reflexivity. }
  rewrite Hkw. unfold bind at 1. rewrite (safe_execute_returns _ _ _ _ _ Hcall).
  unfold bind, lift, ret.
  cbn [envelope py_getitem dict_get String.eqb Ascii.eqb Bool.eqb truthy].
  rewrite Hres. cbn [py_iter]. rewrite (simplify_users _ Hdicts).
  reflexivity.
Qed.

Lemma find_comment_find (cs : list value) (comment_id : value) :
  forallb isinstance_dict cs = true ->
  find_comment cs comment_id
  = Ok (match find (comment_matches comment_id) cs with
        | Some c => envelope true c VNone
        | None =>
            failure (String.append "Comment with ID "
                       (String.append (py_str comment_id) " not found."))
        end).
Proof.
  induction cs as [| c cs IH]; cbn [forallb find find_comment]; intros H; [reflexivity |].
  apply andb_true_iff in H as [Hc Hcs].
  destruct c; try discriminate.
  unfold comment_matches, field_or. cbn [py_get bindO].
  destruct (py_eq _ comment_id); [reflexivity | now apply IH].
Qed.

(** X5.  [NOTION_GET_COMMENT_BY_ID] issues one listing call for at most
    100 comments and scans that page only: it returns the first comment
    whose ["id"] equals [comment_id], and a not-found failure when the
    page has none, whether or not the reply announces further pages. *)
Theorem get_comment_scans_first_page :
  forall (parent_block_id comment_id : value) (st : state) (data : value) (w' : W)
         (cs : list value),
    truthy parent_block_id = true ->
    truthy comment_id = true ->
    notion comments_list [("block_id", parent_block_id); ("page_size", VInt 100)] (world st)
    = (Returns data, w') ->
    py_get data "results" (VList []) = Ok (VList cs) ->
    forallb isinstance_dict cs = true ->
    NOTION_GET_COMMENT_BY_ID parent_block_id comment_id st
    = (Ok (match find (comment_matches comment_id) cs with
           | Some c => envelope true c VNone
           | None =>
               failure (String.append "Comment with ID "
                          (String.append (py_str comment_id) " not found."))
           end),
       mkState w'
         (calls st ++ [(comments_list,
                        [("block_id", parent_block_id); ("page_size", VInt 100)])])).
Proof.
  intros parent_block_id comment_id st data w' cs Hparent Hid Hcall Hres Hdicts.
  unfold NOTION_GET_COMMENT_BY_ID. rewrite Hparent, Hid. cbn [negb orb]. cbv zeta.
  unfold bind at 1. rewrite (safe_execute_returns _ _ _ _ _ Hcall).
  unfold bind, lift, ret.
  cbn [envelope py_getitem dict_get String.eqb Ascii.eqb Bool.eqb truthy negb].
  rewrite Hres. cbn [py_iter]. rewrite (find_comment_find _ _ Hdicts).
  reflexivity.
Qed.

Lemma parse_blocks_spec (blocks parsed_blocks : list value) :
  parse_blocks blocks parsed_blocks
  = match find (fun b => negb (block_readable b)) blocks with
    | Some b => inl (failure (String.append "Invalid block format: " (py_str b)))
    | None => inr (parsed_blocks ++ map sent_block blocks)
    end.
Proof.
  revert parsed_blocks.
  induction blocks as [| b blocks IH]; intros acc; cbn [parse_blocks find map].
  - now rewrite app_nil_r.
  - destruct b as [| | | | | d]; try reflexivity.
    unfold block_readable, sent_block, field_or. cbn [py_get].
    destruct (py_eq match dict_get "object" d with
                    | Some x => x
                    | None => VNone
                    end (VStr "block")); cbn [orb negb].
    + rewrite IH. destruct (find _ blocks); [reflexivity |].
      now rewrite <- app_assoc.
    + unfold dict_has. destruct (dict_get "content" d) as [content |]; cbn [negb].
      * rewrite IH. destruct (find _ blocks); [reflexivity |].
        now rewrite <- app_assoc.
      * reflexivity.
Qed.

Lemma sent_block_is_block (b : value) :
  block_readable b = true -> is_block (sent_block b).
Proof.
  destruct b as [| | | | | d]; try discriminate.
  unfold block_readable, sent_block, field_or. cbn [py_get].
  destruct (py_eq match dict_get "object" d with
                  | Some x => x
                  | None => VNone
                  end (VStr "block")) eqn:Hobj.
  - intros _. apply py_eq_str in Hobj. exists d. split; [reflexivity |].
    destruct (dict_get "object" d); [now subst | discriminate].
  - intros _. eexists. split; reflexivity.
Qed.

(** X6.  For a valid parent and a list of 1 to 100 elements,
    [NOTION_ADD_MULTIPLE_PAGE_CONTENT] looks for the first element that is
    neither a block nor a mapping with ["content"].  When there is one it
    returns the failure envelope that names it and issues no call, so
    nothing is sent, not even the elements before it.  When there is none
    it issues one append call whose children are, in order, the elements
    that are blocks as given and a paragraph block with the content of
    each of the others: as many children as elements, all of them
    blocks. *)
Theorem add_multiple_sends_blocks_or_nothing :
  forall (parent_block_id after : value) (blocks : list value) (st : state),
    validate_notion_id parent_block_id = true ->
    0 < length blocks <= 100 ->
    NOTION_ADD_MULTIPLE_PAGE_CONTENT parent_block_id (VList blocks) after st
    = match find (fun b => negb (block_readable b)) blocks with
      | Some b =>
          (Ok (failure (String.append "Invalid block format: " (py_str b))), st)
      | None =>
          safe_execute blocks_children_append
            (("block_id", parent_block_id) :: ("children", VList (map sent_block blocks))
             :: (if is_none after then [] else [("after", after)])) st
      end
    /\ length (map sent_block blocks) = length blocks
    /\ (forall b, In b blocks -> block_readable b = true -> is_block (sent_block b)).
Proof.
  intros parent_block_id after blocks st Hvalid [Hpos Hmax].
  split; [| split; [apply length_map | intros b _; apply sent_block_is_block]].
  unfold NOTION_ADD_MULTIPLE_PAGE_CONTENT. rewrite Hvalid.
  cbn [negb isinstance_list orb py_len py_iter].
  destruct (Nat.eqb (length blocks) 0) eqn:Hzero;
    [apply Nat.eqb_eq in Hzero; lia |].
  destruct (Nat.ltb 100 (length blocks)) eqn:Hlong;
    [apply Nat.ltb_lt in Hlong; lia |].
  unfold bind, lift, ret. rewrite parse_blocks_spec.
  destruct (find _ blocks); [reflexivity |].
  cbn [app]. destruct (is_none after); reflexivity.
Qed.

Lemma find_title_prop_find (values : list value) :
  find_title_prop values
  = match find is_title_prop values with
    | Some v => v
    | None => VNone
    end.
Proof.
  induction values as [| v values IH]; cbn [find_title_prop find]; [reflexivity |].
  destruct (is_title_prop v); [reflexivity | exact IH].
Qed.

(** Reading and joining the runs of a title succeeds exactly when
    [plain_texts] has a text, and gives that text. *)
Lemma joined_plain_texts (runs : list value) :
  match (texts <~ map_outcome (fun t => py_get t "plain_text" (VStr "")) runs ;;
         py_join texts) with
  | Ok joined => plain_texts runs = Some joined
  | Raise _ => plain_texts runs = None
  end.
Proof.
  induction runs as [| run runs IH]; [reflexivity |].
  rewrite map_outcome_cons.
  destruct run as [| | | | | r]; try reflexivity.
  cbn [py_get bindO]. simpl plain_texts.
  destruct (map_outcome (fun t => py_get t "plain_text" (VStr "")) runs) as [texts |];
    cbn [bindO] in *.
  - revert IH. destruct (py_join texts) as [joined |] eqn:Hjoin; intros IH; rewrite IH;
      destruct (dict_get "plain_text" r) as [[| | | s | |] |];
      cbn [py_join bindO]; rewrite ?Hjoin; reflexivity.
  - rewrite IH. now destruct (dict_get "plain_text" r) as [[| | | s | |] |].
Qed.

(** A non-empty iterable that is not a list holds strings, which have no
    [get]; an empty one gives the empty text. *)
Lemma title_not_a_list (x : value) :
  isinstance_list x = false ->
  match (ts <~ py_iter x ;;
         texts <~ map_outcome (fun t => py_get t "plain_text" (VStr "")) ts ;;
         joined <~ py_join texts ;;
         Ok (if truthy (VStr joined) then VStr joined else VStr "Untitled")) with
  | Ok t => t
  | Raise _ => VStr "Untitled"
  end = VStr "Untitled".
Proof.
  destruct x as [| | | s | | d]; try discriminate; intros _; try reflexivity.
  - destruct s; reflexivity.
  - destruct d as [| [k v] d]; reflexivity.
Qed.

Lemma page_title_summary (d : dict) :
  match page_title (VDict d) with
  | Ok t => t
  | Raise _ => VStr "Untitled"
  end = VStr (summary_title (VDict d)).
Proof.
  unfold page_title, summary_title, field_or. cbn [py_get bindO].
  destruct (match dict_get "properties" d with
            | Some x => x
            | None => VDict []
            end) as [| | | | | props]; try reflexivity.
  cbn [py_values bindO]. rewrite find_title_prop_find. unfold first_title_property.
  destruct (find is_title_prop (map snd props)) as [v |] eqn:Hfind; [| reflexivity].
  apply find_some in Hfind as [_ Htitle].
  unfold is_title_prop in Htitle. destruct v as [| | | | | p]; try discriminate.
  cbn [isinstance_dict py_contains andb] in Htitle. unfold dict_has in Htitle.
  assert (Htruthy : truthy (VDict p) = true) by (destruct p; [discriminate | reflexivity]).
  rewrite Htruthy. cbn [py_get bindO].
  destruct (dict_get "title" p) as [x |]; [| discriminate].
  destruct (isinstance_list x) eqn:Hlist.
  - destruct x as [| | | | runs |]; try discriminate. cbn [py_iter bindO].
    pose proof (joined_plain_texts runs) as Hjoin.
    destruct (map_outcome (fun t => py_get t "plain_text" (VStr "")) runs) as [texts |];
      cbn [bindO] in *.
    + destruct (py_join texts) as [joined |]; cbn [bindO]; rewrite Hjoin; [| reflexivity].
      cbn [truthy]. destruct (String.eqb joined ""); reflexivity.
    + now rewrite Hjoin.
  - rewrite (title_not_a_list x Hlist).
    destruct x; try discriminate; reflexivity.
Qed.

Lemma page_summaries (pgs : list value) :
  forallb isinstance_dict pgs = true ->
  map_outcome page_summary pgs = Ok (map summary_of pgs).
Proof.
  induction pgs as [| pg pgs IH]; cbn [forallb map]; intros H; [reflexivity |].
  apply andb_true_iff in H as [Hpg Hpgs].
  rewrite map_outcome_cons, (IH Hpgs).
  destruct pg as [| | | | | d]; try discriminate.
  unfold page_summary. rewrite page_title_summary. reflexivity.
Qed.

(** X7.  On a reply whose ["results"] is a list of page mappings,
    [list_pages] does not raise, whatever those mappings hold: it returns
    one summary per page, in order, with the page's ["id"] and ["url"]
    and the title [summary_title] gives: the text of the first title-typed
    property, and ["Untitled"] for a missing, empty or unreadable
    title. *)
Theorem list_pages_summaries :
  forall (keyword : value) (st : state) (data : value) (w' : W) (pgs : list value),
    let kwargs :=
      if truthy keyword
      then [("filter", object_filter "page"); ("query", keyword)]
      else [("filter", object_filter "page")] in
    notion search kwargs (world st) = (Returns data, w') ->
    py_get data "results" (VList []) = Ok (VList pgs) ->
    forallb isinstance_dict pgs = true ->
    list_pages keyword st
    = (Ok (envelope true (VList (map summary_of pgs)) (VStr "")),
       mkState w' (calls st ++ [(search, kwargs)])).
Proof.
  intros keyword st data w' pgs kwargs Hcall Hres Hdicts.
  unfold list_pages. cbv zeta.
  assert (Hkw : (if truthy keyword
                 then dict_set "query" keyword
                        [("filter", VDict [("property", VStr "object");
                                           ("value", VStr "page")])]
                 else [("filter", VDict [("property", VStr "object");
                                         ("value", VStr "page")])]) = kwargs).
  { subst kwargs. destruct (truthy keyword); reflexivity. }
  rewrite Hkw. unfold bind at 1. rewrite (safe_execute_returns _ _ _ _ _ Hcall).
  unfold bind, lift, ret.
  cbn [envelope py_getitem dict_get String.eqb Ascii.eqb Bool.eqb truthy negb].
  rewrite Hres. cbn [py_iter]. rewrite (page_summaries _ Hdicts). reflexivity.
Qed.

(** ** Beyond the claims: request shaping *)

Lemma sort_entries_normalized (ss : list value) :
  forallb has_property ss = true ->
  map_outcome sort_entry ss = Ok (map normalized_sort ss).
Proof.
  induction ss as [| s ss IH]; cbn [forallb map]; intros H; [reflexivity |].
  apply andb_true_iff in H as [Hs Hss].
  rewrite map_outcome_cons, (IH Hss).
  unfold has_property, py_contains, dict_has in Hs. destruct s; try discriminate.
  unfold sort_entry, normalized_sort, field_or, py_getitem, py_get.
  destruct (dict_get "property" kvs); [reflexivity | discriminate].
Qed.

(** X8.  For a valid database identifier and a non-empty list of sort
    objects that each have a ["property"] entry, [NOTION_QUERY_DATABASE]
    sends one query whose sorts keep, in order, only the property and the
    direction of each object, the direction being ["ascending"] where
    none is given; any other entry of a sort object is dropped. *)
Theorem query_database_normalises_sorts :
  forall (database_id start_cursor : value) (page_size : option value)
         (ss : list value) (st : state),
    validate_notion_id database_id = true ->
    ss <> [] ->
    forallb has_property ss = true ->
    NOTION_QUERY_DATABASE database_id page_size (VList ss) start_cursor st
    = safe_execute databases_query
        (("database_id", database_id) :: ("page_size", dflt (VInt 10) page_size)
         :: ("sorts", VList (map normalized_sort ss))
         :: (if truthy start_cursor then [("start_cursor", start_cursor)] else [])) st.
Proof.
  intros database_id start_cursor page_size ss st Hvalid Hne Hprops.
  unfold NOTION_QUERY_DATABASE. cbv zeta. rewrite Hvalid. cbn [negb].
  assert (Htruthy : truthy (VList ss) = true) by (destruct ss; [contradiction | reflexivity]).
  rewrite Htruthy. cbn [py_iter]. unfold bind, lift, ret.
  rewrite (sort_entries_normalized _ Hprops).
  destruct (truthy start_cursor); reflexivity.
Qed.

(** X9.  [NOTION_ARCHIVE_NOTION_PAGE] is [NOTION_UPDATE_PAGE] with the
    archive flag alone: for a flag other than [None] both tools do the
    same, the same call included, and with the flag left out the archive
    tool is the update with [archived = True]. *)
Theorem archive_is_update_page :
  forall (page_id archive : value) (st : state),
    is_none archive = false ->
    NOTION_ARCHIVE_NOTION_PAGE page_id (Some archive) st
    = NOTION_UPDATE_PAGE page_id VNone archive VNone VNone VNone st
    /\ NOTION_ARCHIVE_NOTION_PAGE page_id None st
       = NOTION_UPDATE_PAGE page_id VNone (VBool true) VNone VNone VNone st.
Proof.
  intros page_id archive st Hflag.
  unfold NOTION_ARCHIVE_NOTION_PAGE, NOTION_UPDATE_PAGE. cbv zeta.
  cbn [dflt truthy is_none negb]. rewrite Hflag. cbn [negb dict_set].
  destruct (validate_notion_id page_id); cbn [negb]; split; reflexivity.
Qed.

(** X10.  For a valid block identifier and one of the block types with
    rich text (the seven of [rich_text_types], or ["to_do"]),
    [NOTION_UPDATE_BLOCK] sends one update whose entry for that type is
    the single text run of [content] under ["rich_text"], with the extra
    properties merged over it: a ["rich_text"] entry among the extra
    properties replaces the content. *)
Theorem update_block_payload :
  forall (block_id content additional_properties : value) (k : string)
         (extra : dict) (st : state),
    validate_notion_id block_id = true ->
    In k (rich_text_types ++ ["to_do"]) ->
    additional_properties = VDict extra
    \/ (truthy additional_properties = false /\ extra = []) ->
    NOTION_UPDATE_BLOCK block_id (VStr k) content additional_properties st
    = safe_execute blocks_update
        [("block_id", block_id);
         (k, VDict (dict_update [("rich_text", markdown_to_rich_text content)] extra))] st.
Proof.
  intros block_id content additional_properties k extra st Hvalid Hk Hextra.
  assert (Hpayload :
    rich_text_payload content additional_properties
    = Ok (VDict (dict_update [("rich_text", markdown_to_rich_text content)] extra))).
  { unfold rich_text_payload. destruct Hextra as [-> | [Hfalsy ->]].
    - destruct (truthy (VDict extra)) eqn:E; [reflexivity |].
      destruct extra; [reflexivity | discriminate].
    - rewrite Hfalsy. reflexivity. }
  unfold NOTION_UPDATE_BLOCK. rewrite Hvalid. cbn [negb]. rewrite Hpayload.
  cbn [In app rich_text_types] in Hk.
  repeat (destruct Hk as [<- | Hk]); try contradiction; reflexivity.
Qed.

(** X11.  With truthy extra properties, a block type that is the name of
    a keyword the update call already binds (["block_id"], or ["func"] of
    [safe_execute]) or that is not a string makes [NOTION_UPDATE_BLOCK]
    raise [TypeError] while it builds the call: no envelope is returned
    and no call is issued. *)
Theorem update_block_reserved_type_raises :
  forall (block_id block_type content additional_properties : value) (st : state),
    validate_notion_id block_id = true ->
    truthy additional_properties = true ->
    block_type = VStr "block_id" \/ block_type = VStr "func"
    \/ isinstance_str block_type = false ->
    NOTION_UPDATE_BLOCK block_id block_type content additional_properties st
    = (Raise TypeError, st).
Proof.
  intros block_id block_type content additional_properties st Hvalid Hextra Htype.
  unfold NOTION_UPDATE_BLOCK. rewrite Hvalid. cbn [negb].
  destruct Htype as [-> | [-> | Hstr]].
  - cbn. rewrite Hextra. reflexivity.
  - cbn. rewrite Hextra. reflexivity.
  - destruct block_type; try discriminate; cbn; rewrite Hextra; reflexivity.
Qed.

(** X12.  With a truthy [discussion_id], [NOTION_CREATE_COMMENT] replies
    in that discussion and does not look at [parent_page_id]: the one
    request sent carries the discussion and no parent, and its text is
    the comment's ["content"], or the empty string when the comment has
    no such entry. *)
Theorem create_comment_discussion_wins :
  forall (d : dict) (discussion_id parent_page_id parent_page_id' : value) (st : state),
    truthy discussion_id = true ->
    NOTION_CREATE_COMMENT (VDict d) discussion_id parent_page_id st
    = NOTION_CREATE_COMMENT (VDict d) discussion_id parent_page_id' st
    /\ NOTION_CREATE_COMMENT (VDict d) discussion_id parent_page_id st
       = safe_execute comments_create
           [("rich_text", text_runs (field_or (VDict d) "content" (VStr "")));
            ("discussion_id", discussion_id)] st.
Proof.
  intros d discussion_id p p' st Hd.
  unfold NOTION_CREATE_COMMENT. rewrite Hd. cbn [negb andb py_get].
  unfold bind, lift. cbn [dict_set String.eqb Ascii.eqb Bool.eqb].
  split; reflexivity.
Qed.

(** X13.  For a valid parent and a schema mapping, [NOTION_CREATE_DATABASE]
    sends the creation request exactly when some property value is a
    mapping with a ["title"] entry; otherwise it returns the failure
    envelope about the missing title property and issues no call.  The
    names of the properties play no part. *)
Theorem create_database_needs_title_entry :
  forall (parent_id title : value) (props : dict) (st : state),
    validate_notion_id parent_id = true ->
    (Exists (fun kv => is_title_prop (snd kv) = true) props ->
     NOTION_CREATE_DATABASE parent_id title (VDict props) st
     = safe_execute databases_create
         [("parent", VDict [("type", VStr "page_id"); ("page_id", parent_id)]);
          ("title", text_runs title); ("properties", VDict props)] st)
    /\ (Forall (fun kv => is_title_prop (snd kv) = false) props ->
        NOTION_CREATE_DATABASE parent_id title (VDict props) st
        = (Ok (failure "Database must have at least one title property"), st)).
Proof.
  intros parent_id title props st Hvalid.
  unfold NOTION_CREATE_DATABASE. rewrite Hvalid. cbn [negb py_values].
  unfold bind, lift, ret. split; intros H.
  - assert (Hex : existsb is_title_prop (map snd props) = true).
    { apply existsb_exists. apply Exists_exists in H as (kv & Hin & Hkv).
      exists (snd kv). split; [now apply in_map | exact Hkv]. }
    rewrite Hex. reflexivity.
  - assert (Hex : existsb is_title_prop (map snd props) = false).
    { induction H as [| kv props Hkv _ IH]; [reflexivity |].
      cbn [map existsb]. now rewrite Hkv, IH. }
    rewrite Hex. reflexivity.
Qed.

(** ** Beyond the claims: the pagination helpers and the validator *)

Lemma collect_loop_endless func id_key id page_size :
  always_more func ->
  forall fuel acc cur st, collect_loop func id_key id page_size fuel acc cur st = None.
Proof.
  intros Hmore. induction fuel as [| fuel IH]; intros acc cur st; [reflexivity |].
  destruct (Hmore (page_kwargs id_key id page_size cur) (world st))
    as (data & w' & results & items & next & Hcall & Hres & Hit & Hnext & Htruthy).
  rewrite (collect_loop_step _ _ _ _ _ _ _ _ _ _ _ _ _ Hcall Hres Hit Hnext).
  cbv zeta. rewrite Htruthy. cbn [negb]. apply IH.
Qed.

(** X14.  The pagination helpers have no bound on the number of pages:
    against a collaborator whose every page carries a truthy cursor, they
    are still fetching after any number of turns. *)
Theorem pagination_has_no_page_bound :
  forall (fuel : nat) (id : value) (page_size : option value) (st : state),
    (always_more databases_query -> _collect_all_pages_query fuel id page_size st = None)
    /\ (always_more blocks_children_list -> _collect_all_blocks fuel id page_size st = None).
Proof.
  intros fuel id page_size st.
  split; intros Hmore; [unfold _collect_all_pages_query | unfold _collect_all_blocks];
    now apply collect_loop_endless.
Qed.

Lemma string_length_app (s t : string) :
  String.length (String.append s t) = String.length s + String.length t.
Proof. induction s as [| c s IH]; simpl; [reflexivity | now rewrite IH]. Qed.

Lemma hex_digits_in_class (s : string) :
  string_forallb hex_digit s = true -> string_forallb hex_or_dash s = true.
Proof.
  induction s as [| c s IH]; simpl; [reflexivity |].
  intros H. apply andb_true_iff in H as [Hc Hs]. unfold hex_digit in Hc.
  apply andb_true_iff in Hc as [Hc _]. now rewrite Hc, IH.
Qed.

Lemma string_app_empty (s : string) : String.append s "" = s.
Proof. induction s as [| c s IH]; simpl; [reflexivity | now rewrite IH]. Qed.

(** X15.  Exactly which strings [validate_notion_id] accepts: 32 to 36
    hexadecimal digits and dashes in any arrangement, alone or followed
    by one newline.  In particular the grouping of the dashes is not
    checked. *)
Theorem validate_notion_id_exact :
  forall s : string,
    validate_notion_id (VStr s) = true <->
    exists body,
      (s = body \/ s = String.append body (String newline ""))
      /\ string_forallb hex_or_dash body = true
      /\ 32 <= String.length body <= 36.
Proof.
  intros s. rewrite validate_notion_id_spec. split.
  - intros (body & tail & Hs & Hall & Hlen & Htail).
    inversion Hs; subst s. exists body. split; [| split; assumption].
    destruct Htail as [-> | ->]; [left; apply string_app_empty | right; reflexivity].
  - intros (body & Hs & Hall & Hlen).
    destruct Hs as [-> | ->].
    + exists body, "". rewrite string_app_empty. repeat split; auto; lia.
    + exists body, (String newline ""). repeat split; auto; lia.
Qed.

(** X16.  Every identifier in canonical form, 8-4-4-4-12 hexadecimal
    digits in either case, passes the validator, and so does the same
    identifier written without its dashes. *)
Theorem canonical_identifiers_pass :
  forall a b c d e : string,
    string_forallb hex_digit a = true -> String.length a = 8 ->
    string_forallb hex_digit b = true -> String.length b = 4 ->
    string_forallb hex_digit c = true -> String.length c = 4 ->
    string_forallb hex_digit d = true -> String.length d = 4 ->
    string_forallb hex_digit e = true -> String.length e = 12 ->
    validate_notion_id (VStr (dashed a b c d e)) = true
    /\ validate_notion_id
         (VStr (String.append a (String.append b (String.append c (String.append d e)))))
       = true.
Proof.
  intros a b c d e Ha La Hb Lb Hc Lc Hd Ld He Le.
  apply hex_digits_in_class in Ha, Hb, Hc, Hd, He.
  split; apply validate_notion_id_spec.
  - exists (dashed a b c d e), "". rewrite string_app_empty.
    split; [reflexivity |]. unfold dashed. split; [| split; [| now left]].
    + repeat (rewrite string_forallb_app || cbn [string_forallb]).
      rewrite Ha, Hb, Hc, Hd, He. reflexivity.
    + repeat (rewrite string_length_app || cbn [String.length]). lia.
  - eexists. exists "". rewrite string_app_empty.
    split; [reflexivity |]. split; [| split; [| now left]].
    + rewrite !string_forallb_app, Ha, Hb, Hc, Hd, He. reflexivity.
    + rewrite !string_length_app. lia.
Qed.

End Notion.

Arguments mkState {W} world calls.
Arguments world {W} s.
Arguments calls {W} s.
Arguments run_tool {W} notion py_str c st.
Arguments _collect_all_pages_query {W} notion fuel database_id page_size st.
Arguments _collect_all_blocks {W} notion fuel block_id page_size st.
Arguments list_pages {W} notion keyword st.
Arguments NOTION_UPDATE_PAGE {W} notion page_id title archived cover_url icon_emoji properties st.
Arguments NOTION_APPEND_BLOCK_CHILDREN {W} notion block_id children after st.
Arguments NOTION_ADD_MULTIPLE_PAGE_CONTENT {W} notion py_str parent_block_id content_blocks after st.
Arguments NOTION_CREATE_COMMENT {W} notion comment discussion_id parent_page_id st.
Arguments NOTION_FETCH_COMMENTS {W} notion block_id page_size start_cursor st.
Arguments NOTION_UPDATE_ROW_DATABASE {W} notion page_id properties icon cover archived st.

(** * Closed examples *)

(** C1 at an input: a user identifier that fails the pattern. *)
Lemma invalid_identifier_no_call_example :
  validated_id (GetAboutUser (VStr "me")) = Some (VStr "me")
  /\ validate_notion_id (VStr "me") = false
  /\ exists msg,
       run_tool replay no_str (GetAboutUser (VStr "me")) (mkState [] [])
       = (Ok (failure msg), mkState [] []).
Proof.
  split; [reflexivity |]. split; [reflexivity |].
  apply (proj1 (invalid_identifier_no_call (list reply) replay no_str)
           (GetAboutUser (VStr "me")) (VStr "me")); reflexivity.
Defined.

(** C1 as stated fails: the comment tools pass on a discussion or block
    identifier that fails the pattern, and so do the append tools with the
    block identifier [after]; the call is issued. *)
Lemma comment_tools_skip_the_validator :
  validate_notion_id (VStr "not-an-id") = false
  /\ NOTION_CREATE_COMMENT replay (VDict [("content", VStr "hi")]) (VStr "not-an-id") VNone
       (mkState [Returns (VDict [("id", VStr "c1")])] [])
     = (Ok (envelope true (VDict [("id", VStr "c1")]) VNone),
        mkState []
          [(comments_create,
            [("rich_text", text_runs (VStr "hi")); ("discussion_id", VStr "not-an-id")])])
  /\ NOTION_FETCH_COMMENTS replay (VStr "not-an-id") None VNone
       (mkState [Returns (VDict [("results", VList [])])] [])
     = (Ok (envelope true (VDict [("results", VList [])]) VNone),
        mkState []
          [(comments_list, [("block_id", VStr "not-an-id"); ("page_size", VInt 100)])])
  /\ NOTION_APPEND_BLOCK_CHILDREN replay hex_id (VList [VDict [("type", VStr "divider")]])
       (VStr "not-an-id") (mkState [Returns (VDict [("results", VList [])])] [])
     = (Ok (envelope true (VDict [("results", VList [])]) VNone),
        mkState []
          [(blocks_children_append,
            [("block_id", hex_id); ("children", VList [VDict [("type", VStr "divider")]]);
             ("after", VStr "not-an-id")])]).
Proof. repeat split. Qed.

(** C3 at an input: two pages, the first with the cursor ["cursor-2"]. *)
Lemma pagination_collects_every_page_example :
  _collect_all_pages_query replay 2 hex_id None
    (mkState [Returns page_one; Returns page_two] [])
  = Some (Ok (envelope true (VDict [("results", VList [VInt 1; VInt 2; VInt 3])]) VNone),
          mkState []
            [(databases_query, [("database_id", hex_id); ("page_size", VInt 100)]);
             (databases_query, [("database_id", hex_id); ("page_size", VInt 100);
                                ("start_cursor", VStr "cursor-2")])]).
Proof.
  assert (Hfuel : length [([VInt 1; VInt 2], VStr "cursor-2")] < 2) by (simpl; lia).
  apply (proj1 (pagination_collects_every_page (list reply) replay hex_id None
                  [Returns page_one; Returns page_two] []
                  [([VInt 1; VInt 2], VStr "cursor-2")] [VInt 3] [] 2 Hfuel)).
  exists (VStr "cursor-2"), [Returns page_two]. split.
  - eapply served_cons; try reflexivity. apply served_nil.
  - exists page_two, (VList [VInt 3]), VNone. repeat split.
Defined.

(** C3 as stated fails: a page whose cursor is the empty string, which is
    not [None], ends the listing; the second page is never asked for. *)
Lemma pagination_stops_at_empty_cursor :
  py_get page_empty_cursor "next_cursor" VNone = Ok (VStr "")
  /\ is_none (VStr "") = false
  /\ _collect_all_pages_query replay 5 hex_id None
       (mkState [Returns page_empty_cursor; Returns page_two] [])
     = Some (Ok (envelope true (VDict [("results", VList [VInt 1; VInt 2])]) VNone),
             mkState [Returns page_two]
               [(databases_query, [("database_id", hex_id); ("page_size", VInt 100)])])
  /\ _collect_all_blocks replay 5 hex_id None
       (mkState [Returns page_empty_cursor; Returns page_two] [])
     = Some (Ok (envelope true (VDict [("results", VList [VInt 1; VInt 2])]) VNone),
             mkState [Returns page_two]
               [(blocks_children_list, [("block_id", hex_id); ("page_size", VInt 100)])]).
Proof. repeat split. Qed.

(** C4 at an input: the second fetch raises. *)
Lemma pagination_aborts_on_failure_example :
  _collect_all_blocks replay 2 hex_id None
    (mkState [Returns page_one; Raises "rate limited"] [])
  = Some (Ok (envelope false (VDict []) (VStr "rate limited")),
          mkState []
            [(blocks_children_list, [("block_id", hex_id); ("page_size", VInt 100)]);
             (blocks_children_list, [("block_id", hex_id); ("page_size", VInt 100);
                                     ("start_cursor", VStr "cursor-2")])]).
Proof.
  assert (Hfuel : length [([VInt 1; VInt 2], VStr "cursor-2")] < 2) by (simpl; lia).
  assert (Hrun : failing_run (list reply) replay blocks_children_list "block_id" hex_id
                   (VInt 100) [Returns page_one; Raises "rate limited"]
                   [([VInt 1; VInt 2], VStr "cursor-2")] (VStr "cursor-2")
                   [Raises "rate limited"] "rate limited" []).
  { split; [| reflexivity]. eapply served_cons; try reflexivity. apply served_nil. }
  destruct (proj2 (pagination_aborts_on_failure (list reply) replay hex_id None
                     [Returns page_one; Raises "rate limited"] []
                     [([VInt 1; VInt 2], VStr "cursor-2")] (VStr "cursor-2")
                     [Raises "rate limited"] "rate limited" [] 2 Hfuel) Hrun)
    as [Hloop Hfailed].
  rewrite Hloop. cbv zeta in Hfailed. rewrite Hfailed. reflexivity.
Defined.

(** C5 at an input: a search that returns one titled page. *)
Lemma list_pages_success_example :
  list_pages replay VNone (mkState [Returns (VDict [("results", VList [titled_page])])] [])
  = (Ok (envelope true
           (VList [VDict [("id", VStr "p1"); ("title", VStr "Plan");
                          ("url", VStr "https://notion.so/p1")]])
           (VStr "")),
     mkState [] [(search, [("filter", object_filter "page")])])
  /\ py_getitem
       (envelope true
          (VList [VDict [("id", VStr "p1"); ("title", VStr "Plan");
                         ("url", VStr "https://notion.so/p1")]])
          (VStr "")) "error"
     = Ok (VStr "").
Proof.
  split; [reflexivity |].
  apply (list_pages_success_error_is_empty_string (list reply) replay VNone
           (mkState [Returns (VDict [("results", VList [titled_page])])] [])
           (mkState [] [(search, [("filter", object_filter "page")])])
           _ eq_refl eq_refl).
Defined.

(** C6 at an input: 32 hexadecimal digits and a newline. *)
Lemma validate_notion_id_newline_example :
  validate_notion_id
    (VStr (String.append "0123456789abcdef0123456789abcdef" (String newline "")))
  = true.
Proof.
  apply (validate_notion_id_accepts_trailing_newline "0123456789abcdef0123456789abcdef").
  - reflexivity.
  - simpl. lia.
Defined.


(** C7 at an input: the retrieved page holds its title under ["Task"]. *)
Lemma update_page_title_key_example :
  NOTION_UPDATE_PAGE replay hex_id (VStr "New") VNone VNone VNone VNone
    (mkState [Returns titled_page; Returns (VDict [("id", VStr "p1")])] [])
  = (Ok (envelope true (VDict [("id", VStr "p1")]) VNone),
     mkState []
       [(pages_retrieve, [("page_id", hex_id)]);
        (pages_update,
         [("page_id", hex_id);
          ("properties", VDict [("Task", title_value (VStr "New"))])])]).
Proof.
  destruct (update_page_title_key (list reply) replay
              hex_id (VStr "New") VNone VNone VNone VNone
              (mkState [Returns titled_page; Returns (VDict [("id", VStr "p1")])] [])
              (Returns titled_page) [Returns (VDict [("id", VStr "p1")])] "Task" []
              eq_refl eq_refl eq_refl eq_refl (or_intror (conj eq_refl eq_refl)))
    as [Hrun _].
  rewrite Hrun. reflexivity.
Defined.

(** C7 as stated fails: with an identifier that fails the pattern nothing
    is retrieved; an empty title is not a title; the caller's [properties]
    replace the title under the same key; a retrieval that returns
    something other than a page mapping makes the tool raise. *)
Lemma update_page_title_exceptions :
  NOTION_UPDATE_PAGE replay (VStr "my-page") (VStr "New") VNone VNone VNone VNone
    (mkState [Returns titled_page] [])
  = (Ok (failure "Invalid page_id format"), mkState [Returns titled_page] [])
  /\ NOTION_UPDATE_PAGE replay hex_id (VStr "") VNone VNone VNone VNone
       (mkState [Returns (VDict [("id", VStr "p1")])] [])
     = (Ok (envelope true (VDict [("id", VStr "p1")]) VNone),
        mkState [] [(pages_update, [("page_id", hex_id)])])
  /\ NOTION_UPDATE_PAGE replay hex_id (VStr "New") VNone VNone VNone
       (VDict [("Name", VDict [("rich_text", VList [])])])
       (mkState [Raises "not found"; Returns (VDict [("id", VStr "p1")])] [])
     = (Ok (envelope true (VDict [("id", VStr "p1")]) VNone),
        mkState []
          [(pages_retrieve, [("page_id", hex_id)]);
           (pages_update,
            [("page_id", hex_id);
             ("properties", VDict [("Name", VDict [("rich_text", VList [])])])])])
  /\ NOTION_UPDATE_PAGE replay hex_id (VStr "New") VNone VNone VNone VNone
       (mkState [Returns VNone] [])
     = (Raise AttributeError, mkState [] [(pages_retrieve, [("page_id", hex_id)])]).
Proof. repeat split. Qed.



Arguments safe_execute {W} notion func kwargs st.
Arguments always_more {W} notion func.
Arguments NOTION_LIST_USERS {W} notion page_size start_cursor st.
Arguments NOTION_GET_COMMENT_BY_ID {W} notion py_str parent_block_id comment_id st.
Arguments NOTION_QUERY_DATABASE {W} notion database_id page_size sorts start_cursor st.
Arguments NOTION_ARCHIVE_NOTION_PAGE {W} notion page_id archive st.
Arguments NOTION_UPDATE_BLOCK {W} notion py_str block_id block_type content
  additional_properties st.
Arguments NOTION_CREATE_DATABASE {W} notion parent_id title properties st.

(** * Closed examples for the further properties *)

(** X1 at an input: the identity of the integration. *)
Lemma every_tool_returns_an_envelope_example :
  (exists data, envelope true (VDict [("type", VStr "bot")]) VNone = envelope true data VNone)
  \/ (exists msg,
         envelope true (VDict [("type", VStr "bot")]) VNone
         = envelope false (VDict []) (VStr msg))
  \/ (exists keyword data,
         GetAboutMe = ListPages keyword
         /\ envelope true (VDict [("type", VStr "bot")]) VNone
            = envelope true data (VStr "")).
Proof.
  apply (every_tool_returns_an_envelope (list reply) replay no_str GetAboutMe
           (mkState [Returns (VDict [("type", VStr "bot")])] [])
           (mkState [] [(users_me, [])])).
  reflexivity.
Defined.

(** X3 at an input: a comment on a page. *)
Lemma exception_free_tools_return_example :
  exception_free (CreateComment (VDict [("content", VStr "hi")]) VNone hex_id) = true
  /\ exists v st',
       run_tool replay no_str (CreateComment (VDict [("content", VStr "hi")]) VNone hex_id)
         (mkState [Raises "unauthorized"] [])
       = (Ok v, st').
Proof.
  split; [reflexivity |].
  apply (exception_free_tools_return (list reply) replay no_str
           (CreateComment (VDict [("content", VStr "hi")]) VNone hex_id)).
  reflexivity.
Defined.

(** X4 at an input: a user with a name, one without, one whose name is
    [None]. *)
Lemma list_users_projection_example :
  NOTION_LIST_USERS replay None VNone (mkState [Returns users_reply] [])
  = (Ok (envelope true
           (VList [VDict [("id", VStr "u1"); ("name", VStr "Ann")];
                   VDict [("id", VStr "u2"); ("name", VStr "Unknown")];
                   VDict [("id", VStr "u3"); ("name", VNone)]])
           VNone),
     mkState [] [(users_list, [("page_size", VInt 30)])]).
Proof.
  apply (list_users_projection (list reply) replay None VNone
           (mkState [Returns users_reply] []) users_reply [] three_users);
    reflexivity.
Defined.

(** X5 at an input: the second comment of a page that announces more. *)
Lemma get_comment_scans_first_page_example :
  NOTION_GET_COMMENT_BY_ID replay no_str hex_id (VStr "c2")
    (mkState [Returns comments_reply] [])
  = (Ok (envelope true (VDict [("id", VStr "c2")]) VNone),
     mkState [] [(comments_list, [("block_id", hex_id); ("page_size", VInt 100)])]).
Proof.
  apply (get_comment_scans_first_page (list reply) replay no_str hex_id (VStr "c2")
           (mkState [Returns comments_reply] []) comments_reply [] two_comments);
    reflexivity.
Defined.

(** X6 at an input: a block and a piece of text. *)
Lemma add_multiple_sends_blocks_or_nothing_example :
  NOTION_ADD_MULTIPLE_PAGE_CONTENT replay no_str hex_id
    (VList [VDict [("object", VStr "block"); ("type", VStr "divider")];
            VDict [("content", VStr "hi")]]) VNone
    (mkState [Returns (VDict [])] [])
  = (Ok (envelope true (VDict []) VNone),
     mkState []
       [(blocks_children_append,
         [("block_id", hex_id);
          ("children",
           VList [VDict [("object", VStr "block"); ("type", VStr "divider")];
                  VDict [("object", VStr "block"); ("type", VStr "paragraph");
                         ("paragraph",
                          VDict [("rich_text",
                                  VList [VDict [("type", VStr "text");
                                                ("text",
                                                 VDict [("content", VStr "hi")])]])])]])])]).
Proof.
  rewrite (proj1 (add_multiple_sends_blocks_or_nothing (list reply) replay no_str hex_id
                    VNone
                    [VDict [("object", VStr "block"); ("type", VStr "divider")];
                     VDict [("content", VStr "hi")]]
                    (mkState [Returns (VDict [])] []) eq_refl
                    (conj (Nat.lt_0_succ 1) (Nat.lt_le_incl 2 100 ltac:(lia))))).
  reflexivity.
Defined.

(** X7 at an input: a titled page and a page without properties. *)
Lemma list_pages_summaries_example :
  list_pages replay VNone (mkState [Returns pages_reply] [])
  = (Ok (envelope true
           (VList [VDict [("id", VStr "p1"); ("title", VStr "Plan");
                          ("url", VStr "https://notion.so/p1")];
                   VDict [("id", VStr "p2"); ("title", VStr "Untitled");
                          ("url", VNone)]])
           (VStr "")),
     mkState [] [(search, [("filter", object_filter "page")])]).
Proof.
  apply (list_pages_summaries (list reply) replay VNone
           (mkState [Returns pages_reply] []) pages_reply [] two_pages);
    reflexivity.
Defined.

(** X8 at an input: a sort with a further entry and no direction. *)
Lemma query_database_normalises_sorts_example :
  NOTION_QUERY_DATABASE replay hex_id None
    (VList [VDict [("property", VStr "Due"); ("timestamp", VStr "created_time")]]) VNone
    (mkState [Returns page_two] [])
  = (Ok (envelope true page_two VNone),
     mkState []
       [(databases_query,
         [("database_id", hex_id); ("page_size", VInt 10);
          ("sorts", VList [VDict [("property", VStr "Due");
                                  ("direction", VStr "ascending")]])])]).
Proof.
  rewrite (query_database_normalises_sorts (list reply) replay hex_id VNone None
             [VDict [("property", VStr "Due"); ("timestamp", VStr "created_time")]]
             (mkState [Returns page_two] [])).
  - reflexivity.
  - reflexivity.
  - discriminate.
  - reflexivity.
Defined.

(** X9 at an input: restoring a page. *)
Lemma archive_is_update_page_example :
  NOTION_ARCHIVE_NOTION_PAGE replay hex_id (Some (VBool false))
    (mkState [Returns (VDict [("archived", VBool false)])] [])
  = NOTION_UPDATE_PAGE replay hex_id VNone (VBool false) VNone VNone VNone
      (mkState [Returns (VDict [("archived", VBool false)])] []).
Proof.
  apply (proj1 (archive_is_update_page (list reply) replay hex_id (VBool false)
                  (mkState [Returns (VDict [("archived", VBool false)])] []) eq_refl)).
Defined.

(** X10 at an input: a paragraph with the text ["hello"]. *)
Lemma update_block_payload_example :
  NOTION_UPDATE_BLOCK replay no_str hex_id (VStr "paragraph") (VStr "hello") VNone
    (mkState [Returns (VDict [("id", VStr "b1")])] [])
  = (Ok (envelope true (VDict [("id", VStr "b1")]) VNone),
     mkState []
       [(blocks_update,
         [("block_id", hex_id);
          ("paragraph",
           VDict [("rich_text",
                   VList [VDict [("type", VStr "text");
                                 ("text", VDict [("content", VStr "hello")])]])])])]).
Proof.
  rewrite (update_block_payload (list reply) replay no_str hex_id (VStr "hello") VNone
             "paragraph" [] (mkState [Returns (VDict [("id", VStr "b1")])] [])).
  - reflexivity.
  - reflexivity.
  - simpl. now left.
  - right. split; reflexivity.
Defined.

(** X11 at an input: the block type ["block_id"]. *)
Lemma update_block_reserved_type_raises_example :
  NOTION_UPDATE_BLOCK replay no_str hex_id (VStr "block_id") (VStr "hello")
    (VDict [("checked", VBool true)]) (mkState [Returns (VDict [])] [])
  = (Raise TypeError, mkState [Returns (VDict [])] []).
Proof.
  apply (update_block_reserved_type_raises (list reply) replay no_str hex_id
           (VStr "block_id") (VStr "hello") (VDict [("checked", VBool true)])
           (mkState [Returns (VDict [])] [])).
  - reflexivity.
  - reflexivity.
  - now left.
Defined.

(** X12 at an input: a reply, with a page identifier given as well. *)
Lemma create_comment_discussion_wins_example :
  NOTION_CREATE_COMMENT replay (VDict []) (VStr "d1") hex_id
    (mkState [Returns (VDict [("id", VStr "c1")])] [])
  = (Ok (envelope true (VDict [("id", VStr "c1")]) VNone),
     mkState []
       [(comments_create,
         [("rich_text", text_runs (VStr "")); ("discussion_id", VStr "d1")])]).
Proof.
  rewrite (proj2 (create_comment_discussion_wins (list reply) replay [] (VStr "d1")
                    hex_id VNone (mkState [Returns (VDict [("id", VStr "c1")])] [])
                    eq_refl)).
  reflexivity.
Defined.

(** X13 at an input: a schema whose only property is a text column that
    says it is of the title type. *)
Lemma create_database_needs_title_entry_example :
  NOTION_CREATE_DATABASE replay hex_id (VStr "Tasks")
    (VDict [("Notes", VDict [("type", VStr "title"); ("rich_text", VDict [])])])
    (mkState [Returns (VDict [])] [])
  = (Ok (failure "Database must have at least one title property"),
     mkState [Returns (VDict [])] []).
Proof.
  apply (proj2 (create_database_needs_title_entry (list reply) replay hex_id (VStr "Tasks")
                  [("Notes", VDict [("type", VStr "title"); ("rich_text", VDict [])])]
                  (mkState [Returns (VDict [])] []) eq_refl)).
  repeat constructor.
Defined.

(** X14 at an input: the collaborator [endless]. *)
Lemma pagination_has_no_page_bound_example :
  always_more endless databases_query
  /\ _collect_all_pages_query endless 1000 hex_id None (mkState tt []) = None.
Proof.
  assert (Hmore : always_more endless databases_query).
  { intros kwargs w. exists page_one, w, (VList [VInt 1; VInt 2]), [VInt 1; VInt 2],
      (VStr "cursor-2"). repeat split. }
  split; [exact Hmore |].
  apply (proj1 (pagination_has_no_page_bound unit endless 1000 hex_id None
                  (mkState tt [])) Hmore).
Defined.

(** X16 at an input: one identifier, dashed and not. *)
Lemma canonical_identifiers_pass_example :
  validate_notion_id (VStr "01234567-89AB-cdef-0123-456789abcdef") = true
  /\ validate_notion_id (VStr "0123456789ABcdef0123456789abcdef") = true.
Proof.
  apply (canonical_identifiers_pass "01234567" "89AB" "cdef" "0123" "456789abcdef");
    reflexivity.
Defined.
